(** * Keyword agent: trends helper and request validation

    A shallow embedding of
    - [keyword_agent/tools.py]: [_normalisiere_keyword],
      [_dedupe_preserve_order], [brand_safety_ok] and
      [get_trend_daten_fuer_keywords];
    - [gradio_app.py]: [_make_error_outputs] and [process_request_async].

    Conventions.
    - A Python [str] is a [string] whose characters are code points below
      256; the character classes below are Python's own tables on that range
      ([str.isspace], the [\s] and [\w] classes of [re], [str.lower]).
    - A Python [int] is a [Z].
    - Code that talks to the outside (pytrends, the agent runner) lives in a
      monad that records every external call and may raise. *)

From Stdlib Require Import String Ascii List ZArith NArith Bool Lia Arith.
From Stdlib Require Import Permutation DecimalString.
Import ListNotations.

Local Open Scope string_scope.
Local Open Scope list_scope.

(** ** Characters *)

Module Char.

Definition in_range (lo hi n : N) : bool := ((lo <=? n) && (n <=? hi))%N.

  (** [str.isspace] for one character; also the class [\s] of [re]. *)
Definition isspace (c : ascii) : bool :=
    let n := N_of_ascii c in
    in_range 9 13 n || in_range 28 32 n || (n =? 133)%N || (n =? 160)%N.

  (** The class [\w] of [re] on [str] patterns: alphanumeric or underscore. *)
Definition isword (c : ascii) : bool :=
    let n := N_of_ascii c in
    in_range 48 57 n || in_range 65 90 n || (n =? 95)%N || in_range 97 122 n
    || (n =? 170)%N || in_range 178 179 n || (n =? 181)%N
    || in_range 185 186 n || in_range 188 190 n
    || in_range 192 214 n || in_range 216 246 n || in_range 248 255 n.

  (** [str.lower] for one character. *)
Definition lower (c : ascii) : ascii :=
    let n := N_of_ascii c in
    if in_range 65 90 n || in_range 192 214 n || in_range 216 222 n
    then ascii_of_N (n + 32) else c.

Definition space : ascii := " "%char.

End Char.

(** ** The string operations the helper uses *)

Module Str.

Definition is_empty (s : string) : bool :=
    match s with EmptyString => true | String _ _ => false end.

  (** Python truthiness of a [str]. *)
Definition truthy (s : string) : bool := negb (is_empty s).

Fixpoint lstrip (s : string) : string :=
    match s with
    | EmptyString => EmptyString
    | String c r => if Char.isspace c then lstrip r else s
    end.

Fixpoint rstrip (s : string) : string :=
    match s with
    | EmptyString => EmptyString
    | String c r =>
        let r' := rstrip r in
        if Char.isspace c && is_empty r' then EmptyString else String c r'
    end.

  (** [s.strip()] *)
Definition strip (s : string) : string := lstrip (rstrip s).

  (** [re.sub(r"\s+", " ", s)]: every maximal run of whitespace becomes one
      space.  [in_run] says that the previous character was whitespace. *)
Fixpoint sub_ws (in_run : bool) (s : string) : string :=
    match s with
    | EmptyString => EmptyString
    | String c r =>
        if Char.isspace c
        then if in_run then sub_ws true r else String Char.space (sub_ws true r)
        else String c (sub_ws false r)
    end.

  (** [s.lower()] *)
Fixpoint lower (s : string) : string :=
    match s with
    | EmptyString => EmptyString
    | String c r => String (Char.lower c) (lower r)
    end.

  (** Every character is whitespace. *)
Fixpoint blank (s : string) : bool :=
    match s with
    | EmptyString => true
    | String c r => Char.isspace c && blank r
    end.

  (** [x in seen] for a collection of strings. *)
Definition mem (x : string) (seen : list string) : bool :=
    existsb (String.eqb x) seen.

End Str.

(** ** Regular expressions of the shape [\b(w1|w2|...)\b] *)

Module Re.

Definition wordp (c : option ascii) : bool :=
    match c with Some a => Char.isword a | None => false end.

  (** [\b] between the character before and the character after a position;
      outside the string counts as a non-word character. *)
Definition boundary (prev next : option ascii) : bool :=
    xorb (wordp prev) (wordp next).

Definition first (s : string) : option ascii :=
    match s with EmptyString => None | String c _ => Some c end.

  (** Match the literal [w] at the start of [s]; gives the last character
      consumed (or [prev]) and the rest. *)
Fixpoint literal (w : string) (prev : option ascii) (s : string)
    : option (option ascii * string) :=
    match w with
    | EmptyString => Some (prev, s)
    | String a w' =>
        match s with
        | EmptyString => None
        | String c r => if Ascii.eqb a c then literal w' (Some c) r else None
        end
    end.

  (** One attempt at a fixed position: some alternative matches there with a
      boundary on each side (the engine backtracks over the alternatives). *)
Definition match_here (alts : list string) (prev : option ascii) (s : string) : bool :=
    boundary prev (first s) &&
    existsb (fun w =>
               match literal w prev s with
               | Some (last, rest) => boundary last (first rest)
               | None => false
               end) alts.

Fixpoint search_from (alts : list string) (prev : option ascii) (s : string) : bool :=
    match_here alts prev s ||
    match s with
    | EmptyString => false
    | String c r => search_from alts (Some c) r
    end.

  (** [re.search(pat, s)] is not [None]. *)
Definition search (alts : list string) (s : string) : bool :=
    search_from alts None s.

End Re.

(** ** Small utilities of [tools.py] *)

Definition _normalisiere_keyword (keyword : string) : string :=
  let keyword := Str.strip keyword in
  Str.sub_ws false keyword.

(** The loop of [_dedupe_preserve_order]: [seen] is the set, [out] the list. *)
Fixpoint dedupe_loop (items seen out : list string) : list string :=
  match items with
  | [] => out
  | x :: rest =>
      if Str.mem x seen then dedupe_loop rest seen out
      else dedupe_loop rest (x :: seen) (out ++ [x])
  end.

Definition _dedupe_preserve_order (items : list string) : list string :=
  dedupe_loop items [] [].

(** Each pattern [\b(w1|...|wn)\b] is kept as the list of its alternatives. *)
Definition _VERBOTENE_MUSTER : list (list string) :=
  [ ["kokain"; "heroin"; "meth"; "crystal"; "drogen kaufen"];
    ["waffe kaufen"; "schusswaffe"; "bombenbau"];
    ["kindesmissbrauch"] ].

Definition brand_safety_ok (keyword : string) : bool :=
  let k := Str.lower keyword in
  negb (existsb (fun pat => Re.search pat k) _VERBOTENE_MUSTER).

(** Lines 94-96: normalise, filter, deduplicate. *)
Definition clean_keywords (keywords : list string) : list string :=
  let cleaned := map _normalisiere_keyword keywords in
  let cleaned := filter (fun k => Str.truthy k && brand_safety_ok k) cleaned in
  _dedupe_preserve_order cleaned.

(** ** Exceptions and external calls *)

(** An instance of a subclass of [Exception]; [exc_str] is [str(e)].
    Exceptions outside [Exception] come in with [Base]. *)
Record PyException := { exc_class : string; exc_str : string }.

Inductive outcome (A : Type) : Type :=
| Ok (a : A)
| Raised (e : PyException).
Arguments Ok {A} a.
Arguments Raised {A} e.

Definition obind {A B} (m : outcome A) (k : A -> outcome B) : outcome B :=
  match m with
  | Ok a => k a
  | Raised e => Raised e
  end.

(** [try: body  except Exception: default] for code without external calls. *)
Definition try_or {A} (body : outcome A) (default : A) : A :=
  match body with
  | Ok a => a
  | Raised _ => default
  end.

(** A computation that logs the external calls it makes. *)
Module Eff.
Section Eff.
Context {event : Type}.

Definition M (A : Type) : Type := (outcome A * list event)%type.

Definition ret {A} (a : A) : M A := (Ok a, []).

Definition bind {A B} (m : M A) (k : A -> M B) : M B :=
    match m with
    | (Ok a, t) => let (r, t') := k a in (r, t ++ t')
    | (Raised e, t) => (Raised e, t)
    end.

  (** One external call: it is logged, then it returns or raises. *)
Definition call {A} (ev : event) (r : outcome A) : M A := (r, [ev]).

  (** [try: body  except Exception as e: handler e] *)
Definition try_except {A} (body : M A) (handler : PyException -> M A) : M A :=
    match body with
    | (Ok a, t) => (Ok a, t)
    | (Raised e, t) => let (r, t') := handler e in (r, t ++ t')
    end.

  (** [for x in xs: s = body x s] *)
Fixpoint for_each {A S} (xs : list A) (body : A -> S -> M S) (s : S) : M S :=
    match xs with
    | [] => ret s
    | x :: rest => bind (body x s) (for_each rest body)
    end.

Definition result {A} (m : M A) : outcome A := fst m.
Definition trace {A} (m : M A) : list event := snd m.
End Eff.
End Eff.

Notation "x <- m ;; k" := (Eff.bind m (fun x => k))
  (at level 61, m at next level, right associativity).

(** ** Python sequences *)

(** [range(start, stop, step)] for [step > 0]. *)
Definition py_range (start stop step : nat) : list nat :=
  map (fun k => start + k * step) (seq 0 ((stop - start + (step - 1)) / step)).

(** [l[i:j]] for [0 <= i <= j]. *)
Definition slice {A} (l : list A) (i j : nat) : list A :=
  firstn (j - i) (skipn i l).

(** [.head(n)] of pandas: the first [n] rows, or for negative [n] all rows
    but the last [-n]. *)
Definition head {A} (l : list A) (n : Z) : list A :=
  if (0 <=? n)%Z then firstn (Z.to_nat n) l
  else firstn (length l - Z.to_nat (- n)) l.

(** ** What pytrends hands back *)

(** A cell of a time-series column: null, an integer (pytrends delivers
    [int64] values), or an object pandas cannot average. *)
Inductive cell := NaN | Num (z : Z) | Obj.

(** The value of [interest_over_time()]: a frame with one column per label
    (labels are unique), or an object that is no frame. *)
Inductive iot_obj :=
| IotFrame (columns : string -> option (list cell))
| IotOther.

(** An entry of a ["query"] column. *)
Inductive qcell := QStr (s : string) | QOther.

(** A frame of related queries: with its ["query"] column, or without one. *)
Inductive frame :=
| QueryFrame (query : list qcell)
| PlainFrame (rows : nat).

(** [df.empty] *)
Definition frame_empty (df : frame) : bool :=
  match df with
  | QueryFrame q => match q with [] => true | _ => false end
  | PlainFrame n => (n =? 0)%nat
  end.

(** [related[kw]]: a dict with optional ["top"] and ["rising"] frames, or an
    object that is no dict. *)
Inductive rq_obj :=
| RqDict (top rising : option frame)
| RqOther.

(** The value of [related_queries()]. *)
Inductive related_obj :=
| RelatedDict (entries : string -> option rq_obj)
| RelatedOther.

Record payload := { kw_list : list string; timeframe : string; geo : string }.

(** The pytrends library together with the remote service.  The two query
    methods answer for the payload built last; within one run every payload
    is built once, so a function of the payload covers every behaviour. *)
Record Pytrends := {
  import_modules : outcome unit;
  TrendReq : string -> Z -> outcome unit;
  build_payload : payload -> outcome unit;
  interest_over_time : payload -> outcome iot_obj;
  related_queries : payload -> outcome related_obj
}.

Inductive call_event :=
| EvImport
| EvTrendReq (hl : string) (tz : Z)
| EvBuildPayload (p : payload)
| EvInterestOverTime
| EvRelatedQueries.

Definition AttributeError : PyException :=
  {| exc_class := "AttributeError"; exc_str := "object has no such attribute" |}.
Definition TypeError : PyException :=
  {| exc_class := "TypeError"; exc_str := "unsupported operand type(s)" |}.
Definition KeyError : PyException :=
  {| exc_class := "KeyError"; exc_str := "'query'" |}.

(** ** [get_trend_daten_fuer_keywords] *)

Record Ergebnis := {
  keyword : string;
  trend_index : option Z;
  suchvolumen : option Z;
  verwandte_suchanfragen : list string
}.

Record TrendDaten := {
  trends_verfuegbar : bool;
  ergebnisse : list Ergebnis;
  hinweis : string
}.

Definition uuml : string := String (ascii_of_N 252) EmptyString.

(** [.dropna()] *)
Definition dropna (col : list cell) : list cell :=
  filter (fun c => match c with NaN => false | _ => true end) col.

(** The sum of a series; a non-numeric cell makes the reduction raise. *)
Fixpoint series_sum (series : list cell) : outcome Z :=
  match series with
  | [] => Ok 0%Z
  | Num z :: rest => obind (series_sum rest) (fun s => Ok (z + s)%Z)
  | NaN :: rest => series_sum rest
  | Obj :: rest => Raised TypeError
  end.

(** [int(round(float(s / n)))] for [n > 0]: Python rounds halves to even.
    On integer cells the float mean agrees with the exact quotient up to this
    rounding as long as the sum stays below 2^52. *)
Definition round_half_even (s n : Z) : Z :=
  let q := (s / n)%Z in
  let r := (s mod n)%Z in
  if (2 * r <? n)%Z then q
  else if (n <? 2 * r)%Z then (q + 1)%Z
  else if Z.even q then q else (q + 1)%Z.

(** Lines 132-136, the body of the first inner [try]. *)
Definition trend_index_body (iot : iot_obj) (kw : string) : outcome (option Z) :=
  match iot with
  | IotOther => Raised AttributeError
  | IotFrame columns =>
      match columns kw with
      | None => Ok None
      | Some col =>
          let series := dropna col in
          if (0 <? length series)%nat
          then obind (series_sum series)
                 (fun s => Ok (Some (round_half_even s (Z.of_nat (length series)))))
          else Ok None
      end
  end.

(** [df["query"]] *)
Definition query_column (df : frame) : outcome (list qcell) :=
  match df with
  | QueryFrame q => Ok q
  | PlainFrame _ => Raised KeyError
  end.

(** [[_normalisiere_keyword(x) for x in verwandte if isinstance(x, str)]] *)
Fixpoint normalise_strs (verwandte : list qcell) : list string :=
  match verwandte with
  | [] => []
  | QStr x :: rest => _normalisiere_keyword x :: normalise_strs rest
  | QOther :: rest => normalise_strs rest
  end.

(** Lines 142-155, the body of the second inner [try]. *)
Definition verwandte_body (related : related_obj) (kw : string) (max_verwandte : Z)
  : outcome (list string) :=
  match related with
  | RelatedOther => Raised AttributeError
  | RelatedDict entries =>
      let rq := match entries kw with Some rq => rq | None => RqDict None None end in
      match rq with
      | RqOther => Raised AttributeError
      | RqDict top_df rising_df =>
          let verwandte : list qcell := [] in
          obind (match rising_df with
                 | Some df =>
                     if negb (frame_empty df)
                     then obind (query_column df)
                            (fun q => Ok (verwandte ++ head q max_verwandte))
                     else Ok verwandte
                 | None => Ok verwandte
                 end)
            (fun verwandte =>
          obind (match top_df with
                 | Some df =>
                     if negb (frame_empty df)
                        && (Z.of_nat (length verwandte) <? max_verwandte)%Z
                     then
                       let needed := (max_verwandte - Z.of_nat (length verwandte))%Z in
                       obind (query_column df)
                         (fun q => Ok (verwandte ++ head q needed))
                     else Ok verwandte
                 | None => Ok verwandte
                 end)
            (fun verwandte =>
          let verwandte := normalise_strs verwandte in
          let verwandte :=
            filter (fun x => Str.truthy x && brand_safety_ok x) verwandte in
          Ok (_dedupe_preserve_order verwandte)))
      end
  end.

(** Lines 130-166: the record appended for one keyword of a batch. *)
Definition keyword_record (iot : iot_obj) (related : related_obj)
    (max_verwandte : Z) (kw : string) : Ergebnis :=
  let trend_index := try_or (trend_index_body iot kw) None in
  let verwandte := try_or (verwandte_body related kw max_verwandte) [] in
  {| keyword := kw;
     trend_index := trend_index;
     suchvolumen := None;
     verwandte_suchanfragen := verwandte |}.

Definition BATCH_SIZE : nat := 5.

Section Tool.
Variable pytrends : Pytrends.

  (** One turn of the loop over [range(0, len(cleaned), BATCH_SIZE)]. *)
Definition batch_step (cleaned : list string) (land zeitraum : string)
      (max_verwandte : Z) (i : nat) (ergebnisse : list Ergebnis)
    : Eff.M (list Ergebnis) :=
    let batch := slice cleaned i (i + BATCH_SIZE) in
    let p := {| kw_list := batch; timeframe := zeitraum; geo := land |} in
    _ <- Eff.call (EvBuildPayload p) (build_payload pytrends p) ;;
    iot <- Eff.call EvInterestOverTime (interest_over_time pytrends p) ;;
    related <- Eff.call EvRelatedQueries (related_queries pytrends p) ;;
    Eff.ret (fold_left
               (fun ergebnisse kw =>
                  ergebnisse ++ [keyword_record iot related max_verwandte kw])
               batch ergebnisse).

  (** Lines 108-172, the body of the outer [try]. *)
Definition trends_body (cleaned : list string) (land zeitraum sprache : string)
      (max_verwandte : Z) : Eff.M TrendDaten :=
    _ <- Eff.call EvImport (import_modules pytrends) ;;
    _ <- Eff.call (EvTrendReq sprache 360) (TrendReq pytrends sprache 360) ;;
    ergebnisse <-
      Eff.for_each (py_range 0 (length cleaned) BATCH_SIZE)
        (batch_step cleaned land zeitraum max_verwandte) [] ;;
    Eff.ret
      {| trends_verfuegbar := true;
         ergebnisse := ergebnisse;
         hinweis := "trend_index ist ein Proxy (0-100) aus Google Trends; echtes Suchvolumen ist hier nicht enthalten." |}.

Definition fallback_record (k : string) : Ergebnis :=
    {| keyword := k;
       trend_index := None;
       suchvolumen := None;
       verwandte_suchanfragen := [] |}.

Definition hinweis_keine : string :=
    "Keine g" ++ uuml ++ "ltigen Keywords f" ++ uuml
      ++ "r Trends-Abfrage vorhanden.".

Definition hinweis_fehler : string :=
    "Trends-Abfrage nicht verf" ++ uuml ++ "gbar (pytrends Fehler): ".

Definition get_trend_daten_fuer_keywords (keywords : list string)
      (land zeitraum sprache : string) (max_verwandte : Z) : Eff.M TrendDaten :=
    let cleaned := clean_keywords keywords in
    match cleaned with
    | [] =>
        Eff.ret
          {| trends_verfuegbar := false;
             ergebnisse := [];
             hinweis := hinweis_keine |}
    | _ :: _ =>
        Eff.try_except
          (trends_body cleaned land zeitraum sprache max_verwandte)
          (fun e =>
             Eff.ret
               {| trends_verfuegbar := false;
                  ergebnisse := map fallback_record cleaned;
                  hinweis := hinweis_fehler ++ exc_str e |})
    end.
End Tool.

(** The defaults of the signature. *)
Definition land_default : string := "DE".
Definition zeitraum_default : string := "today 12-m".
Definition sprache_default : string := "de-DE".
Definition max_verwandte_default : Z := 5.

(** ** [gradio_app.py] *)

Module App.

(** What a [gr.Number] field hands to [int(...)]: an [int], a finite float
    [m * 2^e], a float that is not finite, or [None]. *)
Inductive number :=
| NInt (z : Z)
| NFloat (m e : Z)
| NNonFinite
| NNone.

Definition ValueError : PyException :=
  {| exc_class := "ValueError"; exc_str := "cannot convert float to integer" |}.

(** [int(x)]: floats are truncated towards zero. *)
Definition py_int (x : number) : outcome Z :=
  match x with
  | NInt z => Ok z
  | NFloat m e =>
      Ok (if (0 <=? e)%Z then (m * 2 ^ e)%Z else Z.quot m (2 ^ (- e)))
  | NNonFinite => Raised ValueError
  | NNone => Raised TypeError
  end.

Inductive app_event :=
| EvRunAgent (thema artikeltext : string) (alter_min alter_max : Z).

Section Request.
Variables DataFrame Chart Results : Type.

(** [pd.DataFrame()] *)
Variable empty_frame : DataFrame.

(** The eight values handed to the output widgets. *)
Record outputs := {
  status : string;
  keywords_df : DataFrame;
  chart : option Chart;
  seo_titel : string;
  meta : string;
  hook : string;
  vorspann : string;
  zusammenfassung : string
}.

(** [run_keyword_agent_async]: creates a session and drains the runner. *)
Variable run_keyword_agent_async : string -> string -> Z -> Z -> outcome Results.

(** Lines 118-147: what is shown for the state the agents produced. *)
Variable present : Results -> outcome outputs.

Definition _make_error_outputs (msg : string) : outputs :=
  {| status := "*" ++ msg ++ "*";
     keywords_df := empty_frame;
     chart := None;
     seo_titel := EmptyString;
     meta := EmptyString;
     hook := EmptyString;
     vorspann := EmptyString;
     zusammenfassung := "*" ++ msg ++ "*" |}.

Definition msg_thema : string := "Bitte ein Thema eingeben.".
Definition msg_ganze_zahlen : string :=
  "Alterswerte m" ++ uuml ++ "ssen ganze Zahlen sein.".
Definition msg_altersbereich : string :=
  "Bitte einen g" ++ uuml
    ++ "ltigen Altersbereich angeben (min <= max, beide >= 0).".

(** [x or s] with the empty string for [s] *)
Definition or_empty (x : option string) : string :=
  match x with
  | Some s => s
  | None => EmptyString
  end.

Definition process_request_async (thema : string) (artikeltext : option string)
    (alter_min alter_max : number) : Eff.M (event := app_event) outputs :=
  if negb (Str.truthy (Str.strip thema))
  then Eff.ret (_make_error_outputs msg_thema)
  else
    match obind (py_int alter_min)
            (fun a => obind (py_int alter_max) (fun b => Ok (a, b))) with
    | Raised _ => Eff.ret (_make_error_outputs msg_ganze_zahlen)
    | Ok (alter_min, alter_max) =>
        if (alter_min <? 0)%Z || (alter_max <? 0)%Z || (alter_max <? alter_min)%Z
        then Eff.ret (_make_error_outputs msg_altersbereich)
        else
          let thema' := Str.strip thema in
          let artikeltext' := or_empty artikeltext in
          results <-
            Eff.call (EvRunAgent thema' artikeltext' alter_min alter_max)
              (run_keyword_agent_async thema' artikeltext' alter_min alter_max) ;;
          (present results, [])
    end.

End Request.

Arguments outputs : clear implicits.
Arguments _make_error_outputs {DataFrame Chart} empty_frame msg.
Arguments process_request_async {DataFrame Chart Results} empty_frame
  run_keyword_agent_async present thema artikeltext alter_min alter_max.

End App.

(** ** Notions used to state the properties *)

(** Deduplication that keeps first occurrences, told by recursion on the
    list: the head stays and its later copies go. *)
Fixpoint first_seen (l : list string) : list string :=
  match l with
  | [] => []
  | x :: rest => x :: filter (fun y => negb (String.eqb x y)) (first_seen rest)
  end.

(** The batch the loop of [get_trend_daten_fuer_keywords] cuts at index [i],
    and all its batches in turn. *)
Definition batch_at (cleaned : list string) (i : nat) : list string :=
  slice cleaned i (i + BATCH_SIZE).

Definition batches (cleaned : list string) : list (list string) :=
  map (batch_at cleaned) (py_range 0 (length cleaned) BATCH_SIZE).

(** A string that is neither empty after normalisation nor on the denylist. *)
Definition acceptable (s : string) : Prop :=
  _normalisiere_keyword s <> EmptyString /\ brand_safety_ok s = true.

(** How many records of a result carry the keyword [k]. *)
Definition occurrences (k : string) (d : TrendDaten) : nat :=
  length (filter (fun r => String.eqb (keyword r) k) (ergebnisse d)).

(** The record of the fallback shape: nothing but the keyword. *)
Definition unavailable (r : Ergebnis) : Prop :=
  trend_index r = None /\ suchvolumen r = None /\ verwandte_suchanfragen r = [].

(** [t] is an integer nearest to the mean of [vs]. *)
Definition nearest_to_mean (t : Z) (vs : list Z) : Prop :=
  (2 * Z.abs (t * Z.of_nat (length vs) - fold_right Z.add 0 vs)
   <= Z.of_nat (length vs))%Z.

(** The payload built for a batch. *)
Definition payload_of (land zeitraum : string) (batch : list string) : payload :=
  {| kw_list := batch; timeframe := zeitraum; geo := land |}.

(** The three calls made for one payload, without the log. *)
Definition batch_answers (P : Pytrends) (p : payload)
  : outcome (iot_obj * related_obj) :=
  obind (build_payload P p) (fun _ =>
  obind (interest_over_time P p) (fun iot =>
  obind (related_queries P p) (fun related => Ok (iot, related)))).

(** One of the three calls made for a payload raises [e]. *)
Definition raised_for (P : Pytrends) (p : payload) (e : PyException) : Prop :=
  build_payload P p = Raised e \/ interest_over_time P p = Raised e
  \/ related_queries P p = Raised e.

(** Some call that a run on [cleaned] can make raises [e]. *)
Definition raised_by (P : Pytrends) (cleaned : list string)
    (land zeitraum sprache : string) (e : PyException) : Prop :=
  import_modules P = Raised e \/ TrendReq P sprache 360 = Raised e
  \/ exists batch, In batch (batches cleaned)
                   /\ raised_for P (payload_of land zeitraum batch) e.

(** Every call that a run on [cleaned] makes returns. *)
Definition all_answered (P : Pytrends) (cleaned : list string)
    (land zeitraum sprache : string) : Prop :=
  import_modules P = Ok tt /\ TrendReq P sprache 360 = Ok tt
  /\ forall batch, In batch (batches cleaned) ->
       exists iot related,
         batch_answers P (payload_of land zeitraum batch) = Ok (iot, related).

(** [r] is the record built for one of its batch's keywords from the answers
    pytrends gave for that batch. *)
Definition built_from (P : Pytrends) (cleaned : list string)
    (land zeitraum : string) (max_verwandte : Z) (r : Ergebnis)
    (batch : list string) (iot : iot_obj) (related : related_obj) : Prop :=
  In batch (batches cleaned) /\ In (keyword r) batch
  /\ batch_answers P (payload_of land zeitraum batch) = Ok (iot, related)
  /\ r = keyword_record iot related max_verwandte (keyword r).

(** The record [r] stems from the batch cut at one of the indices [idxs]. *)
Definition from_index (P : Pytrends) (cleaned : list string)
    (land zeitraum : string) (max_verwandte : Z) (idxs : list nat)
    (r : Ergebnis) : Prop :=
  exists i iot related,
    In i idxs /\ In (keyword r) (batch_at cleaned i)
    /\ batch_answers P (payload_of land zeitraum (batch_at cleaned i))
       = Ok (iot, related)
    /\ r = keyword_record iot related max_verwandte (keyword r).

(** The result when no keyword is left. *)
Definition keine_keywords : TrendDaten :=
  {| trends_verfuegbar := false; ergebnisse := []; hinweis := hinweis_keine |}.

(** The result when a call raised [e]. *)
Definition nicht_verfuegbar (cleaned : list string) (e : PyException) : TrendDaten :=
  {| trends_verfuegbar := false;
     ergebnisse := map fallback_record cleaned;
     hinweis := hinweis_fehler ++ exc_str e |}.

(** The cleaning steps at the end of the second inner [try]. *)
Definition clean_related (raw : list qcell) : list string :=
  _dedupe_preserve_order
    (filter (fun x => Str.truthy x && brand_safety_ok x) (normalise_strs raw)).

(** The values [vs] are small enough for the mean of pandas, which is
    computed in [float64], to be the exact one up to the last rounding: the
    absolute values sum to less than 2^52, so every partial sum is an integer
    that a double holds, and the quotient cannot be rounded across a half. *)
Definition exact_in_double (vs : list Z) : Prop :=
  (fold_right (fun v acc => Z.abs v + acc) 0 vs < 2 ^ 52)%Z.

(** What the claims say about [trend_index], for the frame [iot] and the
    keyword [kw]: no column or no value gives null, and so does a value that
    is no number; integers that are exact in double arithmetic give an
    integer nearest to their mean. *)
Definition trend_index_spec (iot : iot_obj) (kw : string) (t : option Z) : Prop :=
  match iot with
  | IotOther => t = None
  | IotFrame columns =>
      match columns kw with
      | None => t = None
      | Some col =>
          (dropna col = [] -> t = None)
          /\ (In Obj col -> t = None)
          /\ (forall vs, vs <> [] -> dropna col = map Num vs ->
              exact_in_double vs ->
              exists z, t = Some z /\ nearest_to_mean z vs)
      end
  end.

(** [float(z)] for an [int] and the cast of an [int64] cell to [float64]:
    the double nearest to [z], a tie going to the even mantissa.  Integers
    below 2^53 are doubles; above, doubles are [2^(e-52)] apart, where
    [2^e <= |z| < 2^(e+1)]. *)
Definition to_double (z : Z) : Z :=
  let a := Z.abs z in
  if (a <? 2 ^ 53)%Z then z
  else
    let ulp := (2 ^ (Z.log2 a - 52))%Z in
    (Z.sgn z * (round_half_even a ulp * ulp))%Z.

(** Lines 133-136 for a column whose only value that is not null is the
    [int64] [z]: the sum of the one cell is [float(z)], the count is 1, so
    [series.mean()] is the double nearest to [z]; [round] and [int] then
    leave this integer as it is. *)
Definition trend_index_single (z : Z) : Z :=
  round_half_even (to_double z) 1.

(** Every value pytrends delivers in a time series lies between 0 and 100. *)
Definition series_in_range (P : Pytrends) : Prop :=
  forall p columns kw col z,
    interest_over_time P p = Ok (IotFrame columns) ->
    columns kw = Some col -> In (Num z) col -> (0 <= z <= 100)%Z.

(** ** Sample services *)

Definition ResponseError : PyException :=
  {| exc_class := "ResponseError";
     exc_str := "The request failed: Google returned a response with code 429" |}.

(** A service that refuses every query. *)
Definition pytrends_429 : Pytrends :=
  {| import_modules := Ok tt;
     TrendReq := fun _ _ => Ok tt;
     build_payload := fun _ => Ok tt;
     interest_over_time := fun _ => Raised ResponseError;
     related_queries := fun _ => Raised ResponseError |}.

Definition sample_iot : iot_obj :=
  IotFrame (fun kw =>
              if String.eqb kw "seo" then Some [Num 40; NaN; Num 61; Num 50]
              else if String.eqb kw "kekse" then Some [Num 3; Obj]
              else if String.eqb kw "leer" then Some [NaN; NaN]
              else None).

Definition sample_related : related_obj :=
  RelatedDict (fun kw =>
     if String.eqb kw "seo" then
       Some (RqDict
               (Some (QueryFrame [QStr "seo tool"; QStr "seo  Agentur "; QStr "was ist seo"]))
               (Some (QueryFrame [QStr "seo tipps"; QOther; QStr "kokain kaufen"; QStr "SEO Kurs"])))
     else if String.eqb kw "kekse" then Some RqOther
     else None).

(** A service that answers every query with the sample frames. *)
Definition pytrends_sample : Pytrends :=
  {| import_modules := Ok tt;
     TrendReq := fun _ _ => Ok tt;
     build_payload := fun _ => Ok tt;
     interest_over_time := fun _ => Ok sample_iot;
     related_queries := fun _ => Ok sample_related |}.

(** A service whose time series leave the range of 0 to 100. *)
Definition pytrends_loud : Pytrends :=
  {| import_modules := Ok tt;
     TrendReq := fun _ _ => Ok tt;
     build_payload := fun _ => Ok tt;
     interest_over_time := fun _ =>
       Ok (IotFrame (fun kw => if String.eqb kw "seo" then Some [Num 250; Num 300]
                               else None));
     related_queries := fun _ => Ok (RelatedDict (fun _ => None)) |}.

(** The cleaned input as the description has it: normalise, drop what is
    empty or on the denylist, keep first occurrences. *)
Definition surviving_keywords (keywords : list string) : list string :=
  first_seen
    (filter (fun k => negb (String.eqb k EmptyString) && brand_safety_ok k)
       (map _normalisiere_keyword keywords)).

(** What one record owes to the two inner [try] blocks: a block that raises
    leaves the default, a block that returns leaves its value. *)
Definition contained (iot : iot_obj) (related : related_obj)
    (max_verwandte : Z) (r : Ergebnis) : Prop :=
  (forall e, trend_index_body iot (keyword r) = Raised e -> trend_index r = None)
  /\ (forall t, trend_index_body iot (keyword r) = Ok t -> trend_index r = t)
  /\ (forall e, verwandte_body related (keyword r) max_verwandte = Raised e ->
                verwandte_suchanfragen r = [])
  /\ (forall v, verwandte_body related (keyword r) max_verwandte = Ok v ->
                verwandte_suchanfragen r = v).

(** What the tool returns for ["seo"; "leer"; "kekse"] and the sample
    service. *)
Definition sample_result : TrendDaten :=
  {| trends_verfuegbar := true;
     ergebnisse :=
       [ {| keyword := "seo"; trend_index := Some 50%Z; suchvolumen := None;
            verwandte_suchanfragen := ["seo tipps"; "SEO Kurs"; "seo tool"] |};
         {| keyword := "leer"; trend_index := None; suchvolumen := None;
            verwandte_suchanfragen := [] |};
         {| keyword := "kekse"; trend_index := None; suchvolumen := None;
            verwandte_suchanfragen := [] |} ];
     hinweis := "trend_index ist ein Proxy (0-100) aus Google Trends; echtes Suchvolumen ist hier nicht enthalten." |}.

(** ** Notions for the utilities *)

(** The last character of [s], or [prev] when [s] is empty. *)
Fixpoint last_or (prev : option ascii) (s : string) : option ascii :=
  match s with
  | EmptyString => prev
  | String c r => last_or (Some c) r
  end.

(** [s] has no whitespace at its end, none at its start when [at_start]
    holds, and all its whitespace is single spaces.  [at_start] also stands
    for: the previous character was a space. *)
Fixpoint tidy (at_start : bool) (s : string) : bool :=
  match s with
  | EmptyString => negb at_start
  | String c r =>
      if Char.isspace c
      then negb at_start && Ascii.eqb c Char.space && tidy true r
      else tidy false r
  end.

(** [w] stands in [s] between two word boundaries. *)
Definition occurs_as_word (w s : string) : Prop :=
  exists pre post,
    s = (pre ++ w ++ post)%string
    /\ Re.boundary (last_or None pre) (Re.first (w ++ post)) = true
    /\ Re.boundary (last_or None (pre ++ w)) (Re.first post) = true.

(** [l1] is [l2] with some elements left out. *)
Inductive subseq {A : Type} : list A -> list A -> Prop :=
| subseq_nil : subseq [] []
| subseq_skip x l1 l2 : subseq l1 l2 -> subseq l1 (x :: l2)
| subseq_keep x l1 l2 : subseq l1 l2 -> subseq (x :: l1) (x :: l2).

(** The payloads built in a log of calls, in order. *)
Fixpoint built_payloads (t : list call_event) : list payload :=
  match t with
  | [] => []
  | EvBuildPayload p :: rest => p :: built_payloads rest
  | _ :: rest => built_payloads rest
  end.

(** ** More of [gradio_app.py] *)

Module Code.

Definition fence : string := "```".
Definition fence_python : string := "```python".

(** [s.replace(old, new)] for a non-empty [old]: the occurrences of [old]
    are taken from left to right and do not overlap.  [skip] counts the
    characters of an occurrence that are still to be passed over. *)
Fixpoint replace_go (old new : string) (skip : nat) (s : string) : string :=
  match s with
  | EmptyString => EmptyString
  | String c r =>
      match skip with
      | S k => replace_go old new k r
      | O =>
          if String.prefix old s
          then (new ++ replace_go old new (String.length old - 1) r)%string
          else String c (replace_go old new 0 r)
      end
  end.

Definition replace (old new s : string) : string := replace_go old new 0 s.

(** [_clean_code]; [None] stands for a value that is no [str]. *)
Definition _clean_code (code_str : option string) : string :=
  match code_str with
  | None => EmptyString
  | Some code_str =>
      let cleaned := Str.strip code_str in
      if String.prefix fence_python cleaned
      then Str.strip (replace fence EmptyString
                        (replace fence_python EmptyString cleaned))
      else if String.prefix fence cleaned
      then Str.strip (replace fence EmptyString cleaned)
      else cleaned
  end.

(** [s] holds the code fence somewhere. *)
Definition has_fence (s : string) : Prop :=
  exists pre post, s = (pre ++ fence ++ post)%string.

(** No suffix of [s] starts with the code fence. *)
Fixpoint fence_free (s : string) : bool :=
  match s with
  | EmptyString => true
  | String c r => negb (String.prefix fence s) && fence_free r
  end.

(** Line 52 of [_build_df_top]. *)
Definition preferred : list string :=
  ["keyword"; "gesamt_score"; "trend_index"; "suchvolumen"; "suchintention";
   "auswahl_begruendung"].

(** Line 53 of [_build_df_top]: the order of the columns of the table, from
    the columns of the frame. *)
Definition ordered_columns (columns : list string) : list string :=
  filter (fun c => Str.mem c columns) preferred
  ++ filter (fun c => negb (Str.mem c preferred)) columns.

End Code.

(** ** [run_keyword_agent_async] *)

Module Runner.

Definition newline : string := String (ascii_of_N 10) EmptyString.

(** [str(z)] for an [int]. *)
Definition py_str_int (z : Z) : string := NilZero.string_of_int (Z.to_int z).

(** The prompt of lines 80-85. *)
Definition nutzer_prompt (thema artikeltext : string) (alter_min alter_max : Z)
  : string :=
  Str.strip
    (newline ++ "thema: " ++ thema ++ newline
     ++ "artikeltext: " ++ artikeltext ++ newline
     ++ "alter_min: " ++ py_str_int alter_min ++ newline
     ++ "alter_max: " ++ py_str_int alter_max ++ newline)%string.

Record Session := { id : string }.
Record Content := { role : string; parts : list string }.

Inductive runner_event :=
| EvCreateSession (user_id app_name : string)
| EvRunAsync (user_id session_id : string) (new_message : Content).

Section Runner.
(** The values kept in the state of a session. *)
Variable V : Type.

(** A [dict] with [str] keys, in insertion order. *)
Definition dict : Type := list (string * V).

(** [d.get(k)] *)
Fixpoint dict_get (d : dict) (k : string) : option V :=
  match d with
  | [] => None
  | (k', v) :: rest => if String.eqb k' k then Some v else dict_get rest k
  end.

(** [d[k] = v] *)
Fixpoint dict_set (d : dict) (k : string) (v : V) : dict :=
  match d with
  | [] => [(k, v)]
  | (k', v') :: rest =>
      if String.eqb k' k then (k, v) :: rest else (k', v') :: dict_set rest k v
  end.

(** [d.update(other)] *)
Definition dict_update (d other : dict) : dict :=
  fold_left (fun d kv => dict_set d (fst kv) (snd kv)) other d.

Record EventActions := { state_delta : option dict }.
Record Event := { actions : option EventActions }.

(** The state delta of an event, when line 97 lets it through. *)
Definition delta_of (event : Event) : option dict :=
  match actions event with
  | Some a =>
      match state_delta a with
      | Some delta => match delta with [] => None | _ :: _ => Some delta end
      | None => None
      end
  | None => None
  end.

(** Lines 96-98: the loop over the events. *)
Definition collect (events : list Event) (results : dict) : dict :=
  fold_left (fun results event =>
               match delta_of event with
               | Some delta => dict_update results delta
               | None => results
               end) events results.

(** The session service and the runner.  The stream of [run_async] yields
    some events and then ends or raises. *)
Record AgentRunner := {
  create_session : string -> string -> outcome Session;
  run_async : string -> string -> Content -> list Event * option PyException
}.

Definition run_keyword_agent_async (root_runner : AgentRunner)
    (thema artikeltext : string) (alter_min alter_max : Z)
  : Eff.M (event := runner_event) dict :=
  session <- Eff.call (EvCreateSession "user" "keyword_agent")
               (create_session root_runner "user" "keyword_agent") ;;
  let content :=
    {| role := "user";
       parts := [nutzer_prompt thema artikeltext alter_min alter_max] |} in
  let events_async := run_async root_runner "user" (id session) content in
  results <- Eff.call (EvRunAsync "user" (id session) content)
               (match snd events_async with
                | None => Ok (collect (fst events_async) [])
                | Some e => Raised e
                end) ;;
  Eff.ret results.

End Runner.
End Runner.

(** ** Exceptions outside [Exception] *)

(** [get_trend_daten_fuer_keywords] once more, for a service that may also
    raise what is no [Exception].  The frames a call returns are pandas
    objects as before, so the two inner [try] blocks are as in
    [keyword_record]. *)
Module Base.

(** What a call can raise: an instance of [Exception], which
    [except Exception] catches, or an instance of another subclass of
    [BaseException] ([KeyboardInterrupt], [SystemExit], [GeneratorExit]),
    which it lets pass. *)
Inductive thrown :=
| AnException (e : PyException)
| Other (cls : string).

Inductive answer (A : Type) : Type :=
| Returns (a : A)
| Throws (t : thrown).
Arguments Returns {A} a.
Arguments Throws {A} t.

Definition M (A : Type) : Type := (answer A * list call_event)%type.

Definition ret {A} (a : A) : M A := (Returns a, []).

Definition bind {A B} (m : M A) (k : A -> M B) : M B :=
  match m with
  | (Returns a, t) => let (r, t') := k a in (r, t ++ t')
  | (Throws x, t) => (Throws x, t)
  end.

Definition call {A} (ev : call_event) (r : answer A) : M A := (r, [ev]).

(** [try: body  except Exception as e: handler e] *)
Definition try_except {A} (body : M A) (handler : PyException -> M A) : M A :=
  match body with
  | (Returns a, t) => (Returns a, t)
  | (Throws (AnException e), t) => let (r, t') := handler e in (r, t ++ t')
  | (Throws (Other cls), t) => (Throws (Other cls), t)
  end.

Fixpoint for_each {A S} (xs : list A) (body : A -> S -> M S) (s : S) : M S :=
  match xs with
  | [] => ret s
  | x :: rest => bind (body x s) (for_each rest body)
  end.

Definition result {A} (m : M A) : answer A := fst m.
Definition trace {A} (m : M A) : list call_event := snd m.

Record Pytrends := {
  import_modules : answer unit;
  TrendReq : string -> Z -> answer unit;
  build_payload : payload -> answer unit;
  interest_over_time : payload -> answer iot_obj;
  related_queries : payload -> answer related_obj
}.

Section Tool.
Variable pytrends : Pytrends.

Definition batch_step (cleaned : list string) (land zeitraum : string)
    (max_verwandte : Z) (i : nat) (ergebnisse : list Ergebnis)
  : M (list Ergebnis) :=
  let batch := slice cleaned i (i + BATCH_SIZE) in
  let p := {| kw_list := batch; timeframe := zeitraum; geo := land |} in
  bind (call (EvBuildPayload p) (build_payload pytrends p)) (fun _ =>
  bind (call EvInterestOverTime (interest_over_time pytrends p)) (fun iot =>
  bind (call EvRelatedQueries (related_queries pytrends p)) (fun related =>
  ret (fold_left
         (fun ergebnisse kw =>
            ergebnisse ++ [keyword_record iot related max_verwandte kw])
         batch ergebnisse)))).

Definition trends_body (cleaned : list string) (land zeitraum sprache : string)
    (max_verwandte : Z) : M TrendDaten :=
  bind (call EvImport (import_modules pytrends)) (fun _ =>
  bind (call (EvTrendReq sprache 360) (TrendReq pytrends sprache 360)) (fun _ =>
  bind (for_each (py_range 0 (length cleaned) BATCH_SIZE)
          (batch_step cleaned land zeitraum max_verwandte) []) (fun ergebnisse =>
  ret {| trends_verfuegbar := true;
         ergebnisse := ergebnisse;
         hinweis := "trend_index ist ein Proxy (0-100) aus Google Trends; echtes Suchvolumen ist hier nicht enthalten." |}))).

Definition get_trend_daten_fuer_keywords (keywords : list string)
    (land zeitraum sprache : string) (max_verwandte : Z) : M TrendDaten :=
  let cleaned := clean_keywords keywords in
  match cleaned with
  | [] =>
      ret {| trends_verfuegbar := false;
             ergebnisse := [];
             hinweis := hinweis_keine |}
  | _ :: _ =>
      try_except
        (trends_body cleaned land zeitraum sprache max_verwandte)
        (fun e =>
           ret {| trends_verfuegbar := false;
                  ergebnisse := map fallback_record cleaned;
                  hinweis := hinweis_fehler ++ exc_str e |})
  end.
End Tool.




End Base.

(** An outcome without exceptions outside [Exception], and a service without
    them, seen as ones that could have them. *)
Definition of_outcome {A} (o : outcome A) : Base.answer A :=
  match o with
  | Ok a => Base.Returns a
  | Raised e => Base.Throws (Base.AnException e)
  end.

Definition of_pytrends (P : Pytrends) : Base.Pytrends :=
  {| Base.import_modules := of_outcome (import_modules P);
     Base.TrendReq := fun hl tz => of_outcome (TrendReq P hl tz);
     Base.build_payload := fun p => of_outcome (build_payload P p);
     Base.interest_over_time := fun p => of_outcome (interest_over_time P p);
     Base.related_queries := fun p => of_outcome (related_queries P p) |}.

Definition of_run {A} (m : Eff.M (event := call_event) A) : Base.M A :=
  (of_outcome (fst m), snd m).


(** * Properties *)

(** ** Examples of the utilities *)

Example normalisiere_ex :
  _normalisiere_keyword "  seo   tipps " = "seo tipps".
Proof. reflexivity. Qed.

Example brand_ex1 : brand_safety_ok "Kokain kaufen" = false.
Proof. reflexivity. Qed.

Example brand_ex2 : brand_safety_ok "methode" = true.
Proof. reflexivity. Qed.

Example brand_ex3 : brand_safety_ok "wo drogen kaufen?" = false.
Proof. reflexivity. Qed.

Example clean_ex :
  clean_keywords [" seo "; "kokain"; "seo"; "  "; "a  b"] = ["seo"; "a b"].
Proof. reflexivity. Qed.

Example range_ex : py_range 0 12 5 = [0; 5; 10].
Proof. reflexivity. Qed.

Example batches_ex :
  batches ["a"; "b"; "c"; "d"; "e"; "f"; "g"]
  = [["a"; "b"; "c"; "d"; "e"]; ["f"; "g"]].
Proof. reflexivity. Qed.

(** Seven keywords make two batches and eight calls. *)
Example trace_ex :
  Eff.trace (get_trend_daten_fuer_keywords pytrends_sample
               ["a"; "b"; "c"; "d"; "e"; "f"; "g"] "DE" "today 12-m" "de-DE" 5)
  = [ EvImport; EvTrendReq "de-DE" 360;
      EvBuildPayload (payload_of "DE" "today 12-m" ["a"; "b"; "c"; "d"; "e"]);
      EvInterestOverTime; EvRelatedQueries;
      EvBuildPayload (payload_of "DE" "today 12-m" ["f"; "g"]);
      EvInterestOverTime; EvRelatedQueries ].
Proof. reflexivity. Qed.

(** A refused query ends the run after three calls. *)
Example trace_429_ex :
  get_trend_daten_fuer_keywords pytrends_429 ["kokain"; "seo"]
    "DE" "today 12-m" "de-DE" 5
  = (Ok (nicht_verfuegbar ["seo"] ResponseError),
     [ EvImport; EvTrendReq "de-DE" 360;
       EvBuildPayload (payload_of "DE" "today 12-m" ["seo"]);
       EvInterestOverTime ]).
Proof. reflexivity. Qed.

Example round_ex :
  (round_half_even 5 2, round_half_even 7 2, round_half_even 10 3) = (2, 4, 3)%Z.
Proof. reflexivity. Qed.

(** ** Normalisation *)

Lemma space_isspace : Char.isspace Char.space = true.
Proof. reflexivity. Qed.

Lemma is_empty_true (s : string) : Str.is_empty s = true <-> s = EmptyString.
Proof. destruct s; simpl; split; congruence. Qed.

Lemma rstrip_empty (s : string) : Str.rstrip s = EmptyString <-> Str.blank s = true.
Proof.
  induction s as [|c r IH]; simpl.
  - tauto.
  - destruct (Char.isspace c); simpl.
    + destruct (Str.rstrip r) eqn:E; simpl.
      * split; [intros _; apply IH; reflexivity | reflexivity].
      * split; [discriminate |].
        intros H. apply IH in H. discriminate.
    + split; discriminate.
Qed.

Lemma blank_rstrip (s : string) : Str.blank (Str.rstrip s) = Str.blank s.
Proof.
  induction s as [|c r IH]; simpl; [reflexivity|].
  destruct (Char.isspace c) eqn:Ec; simpl.
  - destruct (Str.rstrip r) eqn:E; simpl.
    + symmetry. apply rstrip_empty. exact E.
    + rewrite Ec. simpl. exact IH.
  - rewrite Ec. reflexivity.
Qed.

Lemma lstrip_empty (s : string) : Str.lstrip s = EmptyString <-> Str.blank s = true.
Proof.
  induction s as [|c r IH]; simpl.
  - tauto.
  - destruct (Char.isspace c); simpl; [exact IH|].
    split; discriminate.
Qed.

(** A stripped string that is not empty starts with a character that is no
    whitespace. *)
Lemma lstrip_first (s : string) (c : ascii) (r : string) :
  Str.lstrip s = String c r -> Char.isspace c = false.
Proof.
  induction s as [|a t IH]; simpl; [discriminate|].
  destruct (Char.isspace a) eqn:Ea; [exact IH|].
  intros H. injection H as <- _. exact Ea.
Qed.

Lemma blank_lstrip (s : string) : Str.blank (Str.lstrip s) = Str.blank s.
Proof.
  induction s as [|c r IH]; simpl; [reflexivity|].
  destruct (Char.isspace c) eqn:Ec; simpl; [exact IH|].
  rewrite Ec. reflexivity.
Qed.

Lemma blank_strip (s : string) : Str.blank (Str.strip s) = Str.blank s.
Proof. unfold Str.strip. rewrite blank_lstrip. apply blank_rstrip. Qed.

Lemma sub_ws_blank (b : bool) (s : string) :
  Str.blank s = false -> Str.blank (Str.sub_ws b s) = false.
Proof.
  revert b. induction s as [|c r IH]; intros b; simpl; [discriminate|].
  destruct (Char.isspace c) eqn:Ec; cbn [andb].
  - intros H. destruct b; cbn [Str.blank].
    + apply IH, H.
    + rewrite space_isspace. cbn [andb]. apply IH, H.
  - intros _. cbn [Str.blank]. rewrite Ec. reflexivity.
Qed.

Lemma blank_empty_false (s : string) : Str.blank s = false -> s <> EmptyString.
Proof. intros H ->. discriminate. Qed.

(** A keyword normalises to the empty string exactly when it consists of
    whitespace only. *)
Lemma normalisiere_empty (s : string) :
  _normalisiere_keyword s = EmptyString <-> Str.blank s = true.
Proof.
  unfold _normalisiere_keyword. split.
  - intros H. destruct (Str.blank s) eqn:E; [reflexivity|].
    rewrite <- blank_strip in E.
    apply (sub_ws_blank false) in E. rewrite H in E. discriminate.
  - intros H. rewrite <- blank_rstrip in H. apply lstrip_empty in H.
    unfold Str.strip. rewrite H. reflexivity.
Qed.

(** A normalised keyword that is not empty stays non-empty under another
    normalisation. *)
Lemma normalisiere_survives (s : string) :
  _normalisiere_keyword s <> EmptyString ->
  _normalisiere_keyword (_normalisiere_keyword s) <> EmptyString.
Proof.
  intros H C. apply normalisiere_empty in C.
  destruct (Str.blank s) eqn:E.
  - apply H. apply normalisiere_empty. exact E.
  - rewrite <- blank_strip in E. apply (sub_ws_blank false) in E.
    unfold _normalisiere_keyword in C. congruence.
Qed.

(** ** Deduplication *)

Lemma mem_true (x : string) (l : list string) : Str.mem x l = true <-> In x l.
Proof.
  unfold Str.mem. rewrite existsb_exists. split.
  - intros [y [Hy E]]. apply String.eqb_eq in E. subst. exact Hy.
  - intros H. exists x. split; [exact H | apply String.eqb_refl].
Qed.

Lemma mem_false (x : string) (l : list string) : Str.mem x l = false <-> ~ In x l.
Proof.
  rewrite <- mem_true. destruct (Str.mem x l); split; congruence.
Qed.

Lemma dedupe_loop_out (items seen out : list string) :
  dedupe_loop items seen out = out ++ dedupe_loop items seen [].
Proof.
  revert seen out. induction items as [|x rest IH]; intros seen out; simpl.
  - symmetry. apply app_nil_r.
  - destruct (Str.mem x seen).
    + apply IH.
    + rewrite (IH (x :: seen) (out ++ [x])), (IH (x :: seen) [x]).
      rewrite <- app_assoc. reflexivity.
Qed.

Lemma filter_filter_weaker {A} (p q : A -> bool) (l : list A) :
  (forall a, p a = true -> q a = true) ->
  filter p (filter q l) = filter p l.
Proof.
  intros H. induction l as [|a l IH]; simpl; [reflexivity|].
  destruct (q a) eqn:Eq; simpl.
  - rewrite IH. reflexivity.
  - destruct (p a) eqn:Ep; [|exact IH].
    apply H in Ep. congruence.
Qed.

Lemma filter_filter_and {A} (p q : A -> bool) (l : list A) :
  filter p (filter q l) = filter (fun a => q a && p a) l.
Proof.
  induction l as [|a l IH]; simpl; [reflexivity|].
  destruct (q a); simpl; [|exact IH].
  destruct (p a); rewrite IH; reflexivity.
Qed.

(** The loop with a set of strings already seen yields the first occurrences
    that are not in the set. *)
Lemma dedupe_loop_first_seen (items seen : list string) :
  dedupe_loop items seen [] =
  filter (fun y => negb (Str.mem y seen)) (first_seen items).
Proof.
  revert seen. induction items as [|x rest IH]; intros seen; simpl.
  - reflexivity.
  - destruct (Str.mem x seen) eqn:E; simpl.
    + rewrite IH. symmetry. apply filter_filter_weaker.
      intros a Ha. destruct (String.eqb x a) eqn:Exa; [|reflexivity].
      apply String.eqb_eq in Exa. subst a. rewrite E in Ha. discriminate.
    + rewrite dedupe_loop_out. simpl. f_equal.
      rewrite IH, filter_filter_and. apply filter_ext.
      intros a. simpl. rewrite (String.eqb_sym a x).
      destruct (String.eqb x a); reflexivity.
Qed.

(** [_dedupe_preserve_order] keeps exactly the first occurrences. *)
Lemma dedupe_first_seen (items : list string) :
  _dedupe_preserve_order items = first_seen items.
Proof.
  unfold _dedupe_preserve_order. rewrite dedupe_loop_first_seen.
  induction (first_seen items) as [|a l IH]; simpl; [reflexivity|].
  f_equal. exact IH.
Qed.

Lemma first_seen_In (x : string) (l : list string) :
  In x (first_seen l) <-> In x l.
Proof.
  induction l as [|a l IH]; simpl; [tauto|].
  rewrite filter_In, IH. split.
  - intros [H | [H _]]; auto.
  - intros [H | H]; [left; exact H|].
    destruct (String.eqb a x) eqn:E.
    + left. apply String.eqb_eq. exact E.
    + right. split; [exact H | reflexivity].
Qed.

Lemma NoDup_filter {A} (p : A -> bool) (l : list A) :
  NoDup l -> NoDup (filter p l).
Proof.
  induction 1 as [|a l Hn Hd IH]; simpl; [constructor|].
  destruct (p a); [|exact IH].
  constructor; [|exact IH].
  rewrite filter_In. tauto.
Qed.

Lemma first_seen_NoDup (l : list string) : NoDup (first_seen l).
Proof.
  induction l as [|a l IH]; simpl; constructor.
  - rewrite filter_In. intros [_ H]. rewrite String.eqb_refl in H. discriminate.
  - apply NoDup_filter, IH.
Qed.

Lemma filter_length_le' {A} (p : A -> bool) (l : list A) :
  length (filter p l) <= length l.
Proof.
  induction l as [|a l IH]; simpl; [lia|].
  destruct (p a); simpl; lia.
Qed.

Lemma first_seen_length (l : list string) : length (first_seen l) <= length l.
Proof.
  induction l as [|a l IH]; simpl; [lia|].
  pose proof (filter_length_le' (fun y => negb (String.eqb a y)) (first_seen l)).
  lia.
Qed.

(** What survives the three cleaning steps. *)
Lemma clean_keywords_In (k : string) (keywords : list string) :
  In k (clean_keywords keywords) <->
  exists k0, In k0 keywords /\ k = _normalisiere_keyword k0
             /\ k <> EmptyString /\ brand_safety_ok k = true.
Proof.
  unfold clean_keywords. rewrite dedupe_first_seen, first_seen_In.
  rewrite filter_In, in_map_iff, andb_true_iff.
  unfold Str.truthy. rewrite negb_true_iff. split.
  - intros [[k0 [E H0]] [Hne Hb]]. exists k0. repeat split; auto.
    intros ->. discriminate.
  - intros [k0 [H0 [E [Hne Hb]]]]. repeat split; auto.
    + exists k0. auto.
    + destruct k; [congruence | reflexivity].
Qed.

Lemma clean_keywords_NoDup (keywords : list string) :
  NoDup (clean_keywords keywords).
Proof. unfold clean_keywords. rewrite dedupe_first_seen. apply first_seen_NoDup. Qed.

Lemma clean_keywords_acceptable (k : string) (keywords : list string) :
  In k (clean_keywords keywords) -> acceptable k.
Proof.
  intros H. apply clean_keywords_In in H.
  destruct H as [k0 [_ [E [Hne Hb]]]]. split; [|exact Hb].
  subst k. apply normalisiere_survives. exact Hne.
Qed.

(** ** Batches *)

Lemma firstn_plus {A} (a b : nat) (l : list A) :
  firstn (a + b) l = firstn a l ++ firstn b (skipn a l).
Proof.
  revert l. induction a as [|a IH]; intros l; simpl; [reflexivity|].
  destruct l as [|x l]; simpl.
  - rewrite firstn_nil. reflexivity.
  - rewrite IH. reflexivity.
Qed.

Lemma chunks_concat {A} (step c : nat) (l : list A) :
  concat (map (fun k => firstn step (skipn (k * step) l)) (seq 0 c))
  = firstn (c * step) l.
Proof.
  induction c as [|c IH]; [reflexivity|].
  rewrite seq_S, map_app, concat_app, IH. simpl.
  rewrite app_nil_r, <- firstn_plus. f_equal. lia.
Qed.

Lemma batches_chunks (cleaned : list string) :
  batches cleaned =
  map (fun k => firstn BATCH_SIZE (skipn (k * BATCH_SIZE) cleaned))
    (seq 0 ((length cleaned + (BATCH_SIZE - 1)) / BATCH_SIZE)).
Proof.
  unfold batches, batch_at, py_range, slice. rewrite map_map, Nat.sub_0_r.
  apply map_ext. intros k. change (0 + k * BATCH_SIZE) with (k * BATCH_SIZE).
  replace (k * BATCH_SIZE + BATCH_SIZE - k * BATCH_SIZE) with BATCH_SIZE by lia.
  reflexivity.
Qed.

(** The batches, one after the other, are the cleaned list. *)
Lemma batches_concat (cleaned : list string) : concat (batches cleaned) = cleaned.
Proof.
  rewrite batches_chunks, chunks_concat. apply firstn_all2.
  unfold BATCH_SIZE. simpl Nat.sub.
  pose proof (Nat.div_mod_eq (length cleaned + 4) 5) as H.
  pose proof (Nat.mod_upper_bound (length cleaned + 4) 5). lia.
Qed.

Lemma batches_In (cleaned batch : list string) (kw : string) :
  In batch (batches cleaned) -> In kw batch -> In kw cleaned.
Proof.
  intros Hb Hk. rewrite <- (batches_concat cleaned).
  apply in_concat. exists batch. split; assumption.
Qed.

Lemma batches_nil : batches [] = [].
Proof. reflexivity. Qed.

(** ** The effect monad *)

Section EffLemmas.
Context {event : Type}.

Lemma result_bind {A B} (m : @Eff.M event A) (k : A -> @Eff.M event B) :
  Eff.result (Eff.bind m k) = obind (Eff.result m) (fun a => Eff.result (k a)).
Proof.
  destruct m as [[a|e] t]; simpl; [|reflexivity].
  destruct (k a); reflexivity.
Qed.

Lemma result_call {A} (ev : event) (r : outcome A) :
  Eff.result (Eff.call ev r) = r.
Proof. reflexivity. Qed.

Lemma result_try_except {A} (body : @Eff.M event A)
    (handler : PyException -> @Eff.M event A) :
  Eff.result (Eff.try_except body handler) =
  match Eff.result body with
  | Ok a => Ok a
  | Raised e => Eff.result (handler e)
  end.
Proof.
  destruct body as [[a|e] t]; simpl; [reflexivity|].
  destruct (handler e); reflexivity.
Qed.

Lemma result_for_each_cons {A S} (x : A) (rest : list A)
    (body : A -> S -> @Eff.M event S) (s : S) :
  Eff.result (Eff.for_each (x :: rest) body s) =
  obind (Eff.result (body x s)) (fun s' => Eff.result (Eff.for_each rest body s')).
Proof. simpl. apply result_bind. Qed.

End EffLemmas.

(** ** The loop over the batches *)

Lemma fold_left_append {A B} (f : A -> B) (l : list A) (acc : list B) :
  fold_left (fun acc a => acc ++ [f a]) l acc = acc ++ map f l.
Proof.
  revert acc. induction l as [|a l IH]; intros acc; simpl.
  - symmetry. apply app_nil_r.
  - rewrite IH, <- app_assoc. reflexivity.
Qed.

Section Loop.
Variable P : Pytrends.
Variables (cleaned : list string) (land zeitraum : string) (max_verwandte : Z).

Lemma batch_step_result (i : nat) (erg : list Ergebnis) :
  Eff.result (batch_step P cleaned land zeitraum max_verwandte i erg) =
  obind (batch_answers P (payload_of land zeitraum (batch_at cleaned i)))
    (fun a => Ok (erg ++ map (keyword_record (fst a) (snd a) max_verwandte)
                           (batch_at cleaned i))).
Proof.
  unfold batch_step, batch_answers, payload_of, batch_at.
  unfold Eff.result, Eff.bind, Eff.call, Eff.ret. cbv zeta.
  destruct (build_payload P _) as [[]|e]; cbn [obind fst snd]; [|reflexivity].
  destruct (interest_over_time P _) as [iot|e]; cbn [obind fst snd]; [|reflexivity].
  destruct (related_queries P _) as [related|e]; cbn [obind fst snd]; [|reflexivity].
  rewrite fold_left_append. reflexivity.
Qed.

Lemma batch_answers_raised (p : payload) (e : PyException) :
  batch_answers P p = Raised e -> raised_for P p e.
Proof.
  unfold batch_answers, raised_for. intros Ea.
  destruct (build_payload P p) as [[]|e1]; simpl in Ea; [|left; congruence].
  destruct (interest_over_time P p) as [iot|e2]; simpl in Ea;
    [|right; left; congruence].
  destruct (related_queries P p) as [rel|e3]; simpl in Ea;
    [discriminate | right; right; congruence].
Qed.

Lemma batch_answers_ok (p : payload) (a : iot_obj * related_obj) (e : PyException) :
  batch_answers P p = Ok a -> ~ raised_for P p e.
Proof.
  unfold batch_answers, raised_for. intros Ea H.
  destruct (build_payload P p) as [[]|e1]; simpl in Ea; [|discriminate].
  destruct (interest_over_time P p) as [iot|e2]; simpl in Ea; [|discriminate].
  destruct (related_queries P p) as [rel|e3]; simpl in Ea; [|discriminate].
  destruct H as [H | [H | H]]; discriminate.
Qed.

(** What the loop over some indices leaves behind: either the records of
    every batch, each built from that batch's answers, or the exception of a
    call that raised. *)
Lemma loop_result (idxs : list nat) (erg : list Ergebnis) :
  match Eff.result (Eff.for_each idxs
                      (batch_step P cleaned land zeitraum max_verwandte) erg) with
  | Ok out =>
      exists recs,
        out = erg ++ recs
        /\ map keyword recs = concat (map (batch_at cleaned) idxs)
        /\ Forall (from_index P cleaned land zeitraum max_verwandte idxs) recs
        /\ (forall i, In i idxs ->
            exists a, batch_answers P (payload_of land zeitraum (batch_at cleaned i))
                      = Ok a)
  | Raised e =>
      exists i, In i idxs
                /\ raised_for P (payload_of land zeitraum (batch_at cleaned i)) e
  end.
Proof.
  revert erg. induction idxs as [|i rest IH]; intros erg.
  - simpl. exists []. rewrite app_nil_r. repeat split; [constructor|].
    intros i [].
  - rewrite result_for_each_cons, batch_step_result.
    destruct (batch_answers P (payload_of land zeitraum (batch_at cleaned i)))
      as [[iot related]|e] eqn:Ea; cbn [obind fst snd].
    + specialize (IH (erg ++ map (keyword_record iot related max_verwandte)
                               (batch_at cleaned i))).
      destruct (Eff.result (Eff.for_each rest _ _)) as [out|e].
      * destruct IH as [recs [-> [Hk [Hf Ha]]]].
        exists (map (keyword_record iot related max_verwandte) (batch_at cleaned i)
                  ++ recs).
        split; [rewrite app_assoc; reflexivity|]. split; [|split].
        -- rewrite map_app, map_map, Hk. simpl. rewrite map_id. reflexivity.
        -- apply Forall_app. split.
           ++ apply Forall_forall. intros r Hr. apply in_map_iff in Hr.
              destruct Hr as [kw [<- Hkw]].
              exists i, iot, related. simpl. repeat split; auto.
           ++ eapply Forall_impl; [|exact Hf].
              intros r [j [iot' [rel' [Hj H]]]]. exists j, iot', rel'.
              split; [right; exact Hj | exact H].
        -- intros j [<- | Hj]; [eexists; exact Ea | apply Ha, Hj].
      * destruct IH as [j [Hj H]]. exists j. split; [right; exact Hj | exact H].
    + exists i. split; [left; reflexivity | apply batch_answers_raised, Ea].
Qed.

End Loop.

(** ** The whole run *)

(** The body of the outer [try]: it returns the records of every keyword in
    order, or it raises what a call raised. *)
Lemma body_result (P : Pytrends) (cleaned : list string)
    (land zeitraum sprache : string) (max_verwandte : Z) :
  match Eff.result (trends_body P cleaned land zeitraum sprache max_verwandte) with
  | Ok d =>
      trends_verfuegbar d = true
      /\ map keyword (ergebnisse d) = cleaned
      /\ Forall (fun r => exists batch iot related,
                    built_from P cleaned land zeitraum max_verwandte r batch iot related)
           (ergebnisse d)
      /\ all_answered P cleaned land zeitraum sprache
  | Raised e => raised_by P cleaned land zeitraum sprache e
  end.
Proof.
  unfold trends_body, raised_by, all_answered.
  rewrite result_bind, result_call.
  destruct (import_modules P) as [[]|e]; cbn [obind]; [|left; reflexivity].
  rewrite result_bind, result_call.
  destruct (TrendReq P sprache 360) as [[]|e]; cbn [obind];
    [|right; left; reflexivity].
  rewrite result_bind.
  pose proof (loop_result P cleaned land zeitraum max_verwandte
                (py_range 0 (length cleaned) BATCH_SIZE) []) as H.
  destruct (Eff.result (Eff.for_each _ _ _)) as [out|e]; cbn [obind].
  - destruct H as [recs [-> [Hk [Hf Ha]]]]. simpl.
    split; [reflexivity|]. split; [|split].
    + rewrite Hk. apply batches_concat.
    + eapply Forall_impl; [|exact Hf].
      intros r [i [iot [related [Hi [Hin [Ea Er]]]]]].
      exists (batch_at cleaned i), iot, related. repeat split; auto.
      unfold batches. apply in_map. exact Hi.
    + repeat split. intros batch Hb. unfold batches in Hb.
      apply in_map_iff in Hb. destruct Hb as [i [<- Hi]].
      destruct (Ha i Hi) as [[iot related] Ea]. exists iot, related. exact Ea.
  - destruct H as [i [Hi Hr]]. right. right.
    exists (batch_at cleaned i). split; [|exact Hr].
    unfold batches. apply in_map. exact Hi.
Qed.

(** The three ways a call of the tool ends; it returns in each. *)
Lemma tool_cases (P : Pytrends) (keywords : list string)
    (land zeitraum sprache : string) (max_verwandte : Z) :
  exists d,
    Eff.result (get_trend_daten_fuer_keywords P keywords land zeitraum sprache
                  max_verwandte) = Ok d
    /\ ((clean_keywords keywords = [] /\ d = keine_keywords)
        \/ (clean_keywords keywords <> []
            /\ Eff.result (trends_body P (clean_keywords keywords) land zeitraum
                             sprache max_verwandte) = Ok d)
        \/ (clean_keywords keywords <> []
            /\ exists e,
                Eff.result (trends_body P (clean_keywords keywords) land zeitraum
                              sprache max_verwandte) = Raised e
                /\ d = nicht_verfuegbar (clean_keywords keywords) e)).
Proof.
  unfold get_trend_daten_fuer_keywords. cbv zeta.
  destruct (clean_keywords keywords) as [|k rest] eqn:Ec.
  - exists keine_keywords. split; [reflexivity | left; split; reflexivity].
  - rewrite result_try_except.
    destruct (Eff.result (trends_body P (k :: rest) land zeitraum sprache
                            max_verwandte)) as [d|e] eqn:Eb.
    + exists d. split; [reflexivity|]. right. left. split; [discriminate | reflexivity].
    + exists (nicht_verfuegbar (k :: rest) e).
      split; [reflexivity|]. right. right. split; [discriminate|].
      exists e. split; reflexivity.
Qed.

(** ** One record *)

Lemma head_length {A} (l : list A) (n : Z) :
  (0 <= n)%Z -> (Z.of_nat (length (head l n)) <= n)%Z.
Proof.
  intros Hn. unfold head.
  destruct (0 <=? n)%Z eqn:E; [|lia].
  pose proof (firstn_le_length (Z.to_nat n) l). lia.
Qed.

Lemma normalise_strs_In (x : string) (l : list qcell) :
  In x (normalise_strs l) -> exists y, x = _normalisiere_keyword y.
Proof.
  induction l as [|[s|] l IH]; simpl; [tauto | | exact IH].
  intros [<- | H]; [exists s; reflexivity | apply IH, H].
Qed.

Lemma normalise_strs_length (l : list qcell) :
  length (normalise_strs l) <= length l.
Proof.
  induction l as [|[s|] l IH]; simpl; lia.
Qed.

Lemma clean_related_acceptable (raw : list qcell) :
  Forall acceptable (clean_related raw).
Proof.
  apply Forall_forall. intros x Hx. unfold clean_related in Hx.
  rewrite dedupe_first_seen in Hx. apply (proj1 (first_seen_In _ _)) in Hx.
  apply (proj1 (filter_In _ _ _)) in Hx. destruct Hx as [Hin Hf].
  apply andb_true_iff in Hf. destruct Hf as [Ht Hb].
  apply normalise_strs_In in Hin. destruct Hin as [y ->].
  split; [|exact Hb]. apply normalisiere_survives.
  intros E. rewrite E in Ht. discriminate.
Qed.

Lemma clean_related_length (raw : list qcell) :
  length (clean_related raw) <= length raw.
Proof.
  unfold clean_related. rewrite dedupe_first_seen.
  etransitivity; [apply first_seen_length|].
  etransitivity; [apply filter_length_le'|]. apply normalise_strs_length.
Qed.

Lemma clean_related_NoDup (raw : list qcell) : NoDup (clean_related raw).
Proof. unfold clean_related. rewrite dedupe_first_seen. apply first_seen_NoDup. Qed.

(** When the second inner [try] returns, it returns the cleaned form of at
    most [max_verwandte] raw entries (for a maximum that is not negative). *)
Lemma verwandte_body_ok (related : related_obj) (kw : string)
    (max_verwandte : Z) (v : list string) :
  verwandte_body related kw max_verwandte = Ok v ->
  exists raw,
    v = clean_related raw
    /\ ((0 <= max_verwandte)%Z -> (Z.of_nat (length raw) <= max_verwandte)%Z).
Proof.
  unfold verwandte_body.
  destruct related as [entries|]; [|discriminate].
  destruct (match entries kw with Some rq => rq | None => RqDict None None end)
    as [top_df rising_df|]; [|discriminate].
  set (rising := match rising_df with Some df => _ | None => _ end).
  assert (Hr : forall l, rising = Ok l ->
             (0 <= max_verwandte)%Z -> (Z.of_nat (length l) <= max_verwandte)%Z).
  { subst rising. intros l. destruct rising_df as [df|].
    - destruct (frame_empty df); simpl.
      + intros [= <-]. simpl. lia.
      + destruct (query_column df) as [q|e]; simpl; [|discriminate].
        intros [= <-]. apply head_length.
    - intros [= <-]. simpl. lia. }
  destruct rising as [l|e]; cbn [obind]; [|discriminate].
  specialize (Hr l eq_refl).
  set (both := match top_df with Some df => _ | None => _ end).
  assert (Hb : forall l', both = Ok l' ->
             (0 <= max_verwandte)%Z -> (Z.of_nat (length l') <= max_verwandte)%Z).
  { subst both. intros l'. destruct top_df as [df|]; [|intros [= <-]; exact Hr].
    destruct (negb (frame_empty df) && _) eqn:Ec; [|intros [= <-]; exact Hr].
    destruct (query_column df) as [q|e]; simpl; [|discriminate].
    intros [= <-] Hm. rewrite length_app.
    apply andb_true_iff in Ec. destruct Ec as [_ Ec]. apply Z.ltb_lt in Ec.
    pose proof (head_length q (max_verwandte - Z.of_nat (length l))). lia. }
  destruct both as [l'|e]; cbn [obind]; [|discriminate].
  intros [= <-]. exists l'. split; [reflexivity | apply Hb; reflexivity].
Qed.

Lemma record_keyword iot related max_verwandte kw :
  keyword (keyword_record iot related max_verwandte kw) = kw.
Proof. reflexivity. Qed.

Lemma record_suchvolumen iot related max_verwandte kw :
  suchvolumen (keyword_record iot related max_verwandte kw) = None.
Proof. reflexivity. Qed.

Lemma record_verwandte_acceptable iot related max_verwandte kw :
  Forall acceptable
    (verwandte_suchanfragen (keyword_record iot related max_verwandte kw)).
Proof.
  simpl. destruct (verwandte_body related kw max_verwandte) as [v|e] eqn:E; simpl.
  - apply verwandte_body_ok in E. destruct E as [raw [-> _]].
    apply clean_related_acceptable.
  - constructor.
Qed.

Lemma record_verwandte_length iot related max_verwandte kw :
  (0 <= max_verwandte)%Z ->
  (Z.of_nat (length (verwandte_suchanfragen
                       (keyword_record iot related max_verwandte kw)))
   <= max_verwandte)%Z.
Proof.
  intros Hm. simpl.
  destruct (verwandte_body related kw max_verwandte) as [v|e] eqn:E; simpl; [|exact Hm].
  apply verwandte_body_ok in E. destruct E as [raw [-> Hl]].
  pose proof (clean_related_length raw). specialize (Hl Hm). lia.
Qed.

Example sample_run :
  Eff.result (get_trend_daten_fuer_keywords pytrends_sample
                ["seo"; " kekse"; "Seo"; "seo"; "leer"; "x"] "DE" "today 12-m" "de-DE" 5)
  = Ok {| trends_verfuegbar := true;
          ergebnisse :=
            [ {| keyword := "seo"; trend_index := Some 50%Z; suchvolumen := None;
                 verwandte_suchanfragen := ["seo tipps"; "SEO Kurs"; "seo tool"] |};
              {| keyword := "kekse"; trend_index := None; suchvolumen := None;
                 verwandte_suchanfragen := [] |};
              {| keyword := "Seo"; trend_index := None; suchvolumen := None;
                 verwandte_suchanfragen := [] |};
              {| keyword := "leer"; trend_index := None; suchvolumen := None;
                 verwandte_suchanfragen := [] |};
              {| keyword := "x"; trend_index := None; suchvolumen := None;
                 verwandte_suchanfragen := [] |} ];
          hinweis := "trend_index ist ein Proxy (0-100) aus Google Trends; echtes Suchvolumen ist hier nicht enthalten." |}.
Proof. reflexivity. Qed.

(** ** The trend index *)

Lemma round_half_even_nearest (s n : Z) :
  (0 < n)%Z -> (2 * Z.abs (round_half_even s n * n - s) <= n)%Z.
Proof.
  intros Hn. unfold round_half_even.
  pose proof (Z.div_mod s n ltac:(lia)) as Hd.
  pose proof (Z.mod_pos_bound s n Hn) as Hm.
  destruct (2 * (s mod n) <? n)%Z eqn:E1.
  - apply Z.ltb_lt in E1. nia.
  - apply Z.ltb_ge in E1. destruct (n <? 2 * (s mod n))%Z eqn:E2.
    + apply Z.ltb_lt in E2. nia.
    + apply Z.ltb_ge in E2. destruct (Z.even (s / n)); nia.
Qed.

Lemma round_half_even_bounds (s n lo hi : Z) :
  (0 < n)%Z -> (lo * n <= s <= hi * n)%Z ->
  (lo <= round_half_even s n <= hi)%Z.
Proof.
  intros Hn Hs. unfold round_half_even.
  pose proof (Z.div_mod s n ltac:(lia)) as Hd.
  pose proof (Z.mod_pos_bound s n Hn) as Hm.
  assert (lo <= s / n)%Z by (apply Z.div_le_lower_bound; lia).
  assert (s / n <= hi)%Z by (apply Z.div_le_upper_bound; lia).
  assert (s / n = hi -> s mod n = 0)%Z by nia.
  destruct (2 * (s mod n) <? n)%Z eqn:E1; [lia|].
  apply Z.ltb_ge in E1.
  assert (s / n <> hi)%Z by (intros C; lia).
  destruct (n <? 2 * (s mod n))%Z; [lia|].
  destruct (Z.even (s / n)); lia.
Qed.

Lemma series_sum_numbers (vs : list Z) :
  series_sum (map Num vs) = Ok (fold_right Z.add 0%Z vs).
Proof.
  induction vs as [|v vs IH]; simpl; [reflexivity|].
  rewrite IH. reflexivity.
Qed.

(** The sum of a series, when there is one, lies between the multiples of
    any bounds on its numbers. *)
Lemma series_sum_bounds (lo hi : Z) (col : list cell) (s : Z) :
  (forall z, In (Num z) col -> (lo <= z <= hi)%Z) ->
  series_sum (dropna col) = Ok s ->
  (lo * Z.of_nat (length (dropna col)) <= s
   <= hi * Z.of_nat (length (dropna col)))%Z.
Proof.
  revert s. induction col as [|c col IH]; intros s Hb; simpl.
  - intros [= <-]. lia.
  - destruct c as [|z|]; simpl.
    + apply IH. intros z Hz. apply Hb. right. exact Hz.
    + destruct (series_sum (dropna col)) as [s'|e] eqn:E; simpl; [|discriminate].
      intros [= <-].
      specialize (IH s' (fun z Hz => Hb z (or_intror Hz)) eq_refl).
      specialize (Hb z (or_introl eq_refl)). lia.
    + discriminate.
Qed.

(** A value that is no number makes the reduction raise. *)
Lemma series_sum_obj (col : list cell) :
  In Obj col -> series_sum (dropna col) = Raised TypeError.
Proof.
  induction col as [|c col IH]; simpl; [tauto|].
  intros [-> | H]; [reflexivity|].
  destruct c as [|z|]; simpl; [apply IH, H | rewrite (IH H); reflexivity | reflexivity].
Qed.

(** The first inner [try] meets the description of [trend_index]. *)
Lemma record_trend_index_spec iot related max_verwandte kw :
  trend_index_spec iot kw
    (trend_index (keyword_record iot related max_verwandte kw)).
Proof.
  simpl. unfold trend_index_spec, trend_index_body.
  destruct iot as [columns|]; [|reflexivity].
  destruct (columns kw) as [col|]; [|reflexivity].
  split; [|split].
  - intros ->. reflexivity.
  - intros Ho. rewrite (series_sum_obj col Ho).
    destruct (0 <? length (dropna col))%nat; reflexivity.
  - intros vs Hne -> _. rewrite length_map.
    destruct vs as [|v vs]; [congruence|].
    change (0 <? length (v :: vs))%nat with true. cbv iota.
    rewrite series_sum_numbers. simpl obind. simpl try_or.
    eexists. split; [reflexivity|].
    apply round_half_even_nearest. simpl length. lia.
Qed.

Lemma record_trend_index_range iot related max_verwandte kw :
  (forall columns col z, iot = IotFrame columns -> columns kw = Some col ->
                         In (Num z) col -> (0 <= z <= 100)%Z) ->
  match trend_index (keyword_record iot related max_verwandte kw) with
  | Some t => (0 <= t <= 100)%Z
  | None => True
  end.
Proof.
  intros Hr. simpl. unfold trend_index_body.
  destruct iot as [columns|]; [|exact I].
  destruct (columns kw) as [col|] eqn:Ec; [|exact I].
  destruct (0 <? length (dropna col))%nat eqn:El; [|exact I].
  destruct (series_sum (dropna col)) as [s|e] eqn:Es; simpl; [|exact I].
  apply Nat.ltb_lt in El.
  apply round_half_even_bounds; [lia|].
  apply series_sum_bounds; [|exact Es].
  intros z Hz. apply (Hr columns col z eq_refl Ec Hz).
Qed.

(** ** Every record of every result *)

Lemma batch_answers_interest (P : Pytrends) (p : payload)
    (iot : iot_obj) (related : related_obj) :
  batch_answers P p = Ok (iot, related) ->
  interest_over_time P p = Ok iot /\ related_queries P p = Ok related.
Proof.
  unfold batch_answers.
  destruct (build_payload P p) as [[]|e1]; simpl; [|discriminate].
  destruct (interest_over_time P p) as [i|e2]; simpl; [|discriminate].
  destruct (related_queries P p) as [r|e3]; simpl; [|discriminate].
  intros [= <- <-]. split; reflexivity.
Qed.

(** A property of the fallback records and of the records built from the
    answers of pytrends holds for every record the tool returns; and the tool
    returns, with one record per cleaned keyword, in order. *)
Lemma tool_records (Q : Ergebnis -> Prop) (P : Pytrends) (keywords : list string)
    (land zeitraum sprache : string) (max_verwandte : Z) :
  (forall k, In k (clean_keywords keywords) -> Q (fallback_record k)) ->
  (forall batch iot related kw,
      In batch (batches (clean_keywords keywords)) -> In kw batch ->
      batch_answers P (payload_of land zeitraum batch) = Ok (iot, related) ->
      Q (keyword_record iot related max_verwandte kw)) ->
  exists d,
    Eff.result (get_trend_daten_fuer_keywords P keywords land zeitraum sprache
                  max_verwandte) = Ok d
    /\ map keyword (ergebnisse d) = clean_keywords keywords
    /\ Forall Q (ergebnisse d).
Proof.
  intros Hf Hs.
  destruct (tool_cases P keywords land zeitraum sprache max_verwandte)
    as [d [Hd Hc]].
  exists d. split; [exact Hd|].
  destruct Hc as [[Ec ->] | [[Hne Hb] | [Hne [e [Hb ->]]]]].
  - rewrite Ec. split; [reflexivity | constructor].
  - pose proof (body_result P (clean_keywords keywords) land zeitraum sprache
                  max_verwandte) as H.
    rewrite Hb in H. destruct H as [_ [Hk [Hall _]]].
    split; [exact Hk|].
    eapply Forall_impl; [|exact Hall].
    intros r [batch [iot [related [Hin [Hkw [Ea ->]]]]]]. simpl in Hkw.
    apply (Hs batch iot related _ Hin Hkw Ea).
  - simpl. split.
    + rewrite map_map. simpl. apply map_id.
    + apply Forall_forall. intros r Hr. apply in_map_iff in Hr.
      destruct Hr as [k [<- Hk]]. apply Hf, Hk.
Qed.

Lemma occurrences_once (k : string) (recs : list Ergebnis) :
  NoDup (map keyword recs) -> In k (map keyword recs) ->
  length (filter (fun r => String.eqb (keyword r) k) recs) = 1.
Proof.
  induction recs as [|r recs IH]; simpl; [tauto|].
  intros Hnd Hin. inversion Hnd as [|? ? Hnotin Hnd']; subst.
  destruct (String.eqb (keyword r) k) eqn:E.
  - apply String.eqb_eq in E. subst k. simpl. f_equal.
    clear IH Hin Hnd. induction recs as [|r' recs IH]; [reflexivity|].
    simpl. destruct (String.eqb (keyword r') (keyword r)) eqn:E'.
    + exfalso. apply Hnotin. left. apply String.eqb_eq. exact E'.
    + apply IH.
      * intros H. apply Hnotin. right. exact H.
      * inversion Hnd'; assumption.
  - apply IH; [exact Hnd'|].
    destruct Hin as [H | H]; [|exact H].
    subst k. rewrite String.eqb_refl in E. discriminate.
Qed.

Lemma occurrences_none (k : string) (recs : list Ergebnis) :
  ~ In k (map keyword recs) ->
  length (filter (fun r => String.eqb (keyword r) k) recs) = 0.
Proof.
  induction recs as [|r recs IH]; simpl; [reflexivity|].
  intros H. destruct (String.eqb (keyword r) k) eqn:E.
  - exfalso. apply H. left. apply String.eqb_eq. exact E.
  - apply IH. tauto.
Qed.

(** * The claims *)

(** ** Failure of a call to pytrends *)

(** C1, as stated, fails: a denylisted input keyword does not appear in the
    fallback result.  With a service that refuses every query and the input
    ["kokain"; "seo"], the call for the only batch raises, and the result has
    no record for "kokain". *)
Lemma fallback_drops_denylisted_keyword :
  interest_over_time pytrends_429 (payload_of "DE" "today 12-m" ["seo"])
  = Raised ResponseError
  /\ In "kokain" ["kokain"; "seo"]
  /\ Eff.result (get_trend_daten_fuer_keywords pytrends_429 ["kokain"; "seo"]
                   "DE" "today 12-m" "de-DE" 5)
     = Ok (nicht_verfuegbar ["seo"] ResponseError)
  /\ occurrences "kokain" (nicht_verfuegbar ["seo"] ResponseError) = 0.
Proof.
  split; [reflexivity|]. split; [left; reflexivity|].
  split; reflexivity.
Qed.

(** C1, amended: if a call made to pytrends during the run raises, the tool
    returns the fallback result: [trends_verfuegbar] is false, [hinweis] ends
    with the message of an exception that pytrends raised, and [ergebnisse]
    holds every surviving keyword exactly once, in order, each with null
    [trend_index], null [suchvolumen] and no related queries. *)
Theorem fallback_when_provider_raises (P : Pytrends) (keywords : list string)
    (land zeitraum sprache : string) (max_verwandte : Z) (e0 : PyException) :
  clean_keywords keywords <> [] ->
  raised_by P (clean_keywords keywords) land zeitraum sprache e0 ->
  exists e d,
    raised_by P (clean_keywords keywords) land zeitraum sprache e
    /\ Eff.result (get_trend_daten_fuer_keywords P keywords land zeitraum sprache
                     max_verwandte) = Ok d
    /\ trends_verfuegbar d = false
    /\ hinweis d = (hinweis_fehler ++ exc_str e)%string
    /\ map keyword (ergebnisse d) = clean_keywords keywords
    /\ Forall unavailable (ergebnisse d)
    /\ (forall k, In k (clean_keywords keywords) -> occurrences k d = 1).
Proof.
  intros Hne Hr.
  destruct (tool_cases P keywords land zeitraum sprache max_verwandte)
    as [d [Hd [[Ec _] | [[_ Hb] | [_ [e [Hb ->]]]]]]].
  - contradiction.
  - exfalso.
    pose proof (body_result P (clean_keywords keywords) land zeitraum sprache
                  max_verwandte) as H.
    rewrite Hb in H. destruct H as [_ [_ [_ [Hi [Ht Ha]]]]].
    destruct Hr as [Hr | [Hr | [batch [Hin Hr]]]]; [congruence | congruence |].
    destruct (Ha batch Hin) as [iot [related Ea]].
    apply (batch_answers_ok P _ _ e0 Ea Hr).
  - pose proof (body_result P (clean_keywords keywords) land zeitraum sprache
                  max_verwandte) as H.
    rewrite Hb in H.
    assert (Hk : map keyword (map fallback_record (clean_keywords keywords))
                 = clean_keywords keywords).
    { rewrite map_map. simpl. apply map_id. }
    exists e, (nicht_verfuegbar (clean_keywords keywords) e).
    split; [exact H|]. split; [exact Hd|].
    split; [reflexivity|]. split; [reflexivity|]. split; [exact Hk|]. split.
    + apply Forall_forall. intros r Hin. apply in_map_iff in Hin.
      destruct Hin as [k [<- _]]. repeat split.
    + intros k Hk'. unfold occurrences. simpl. apply occurrences_once.
      * rewrite Hk. apply clean_keywords_NoDup.
      * rewrite Hk. exact Hk'.
Qed.

Lemma fallback_when_provider_raises_witness :
  exists e d,
    raised_by pytrends_429 (clean_keywords ["kokain"; "seo"])
      "DE" "today 12-m" "de-DE" e
    /\ Eff.result (get_trend_daten_fuer_keywords pytrends_429 ["kokain"; "seo"]
                     "DE" "today 12-m" "de-DE" 5) = Ok d
    /\ trends_verfuegbar d = false
    /\ hinweis d = (hinweis_fehler ++ exc_str e)%string
    /\ map keyword (ergebnisse d) = clean_keywords ["kokain"; "seo"]
    /\ Forall unavailable (ergebnisse d)
    /\ (forall k, In k (clean_keywords ["kokain"; "seo"]) -> occurrences k d = 1).
Proof.
  apply (fallback_when_provider_raises pytrends_429 ["kokain"; "seo"]
           "DE" "today 12-m" "de-DE" 5 ResponseError).
  - vm_compute. discriminate.
  - right. right. exists ["seo"]. split.
    + vm_compute. left. reflexivity.
    + right. left. reflexivity.
Defined.

(** ** The tool always returns *)

(** With a service that raises nothing but instances of [Exception], the
    tool returns a result whose records have a null [suchvolumen]. *)
Lemma tool_never_raises (P : Pytrends) (keywords : list string) :
  exists d,
    Eff.result (get_trend_daten_fuer_keywords P keywords land_default
                  zeitraum_default sprache_default max_verwandte_default) = Ok d
    /\ Forall (fun r => suchvolumen r = None) (ergebnisse d).
Proof.
  destruct (tool_records (fun r => suchvolumen r = None) P keywords land_default
              zeitraum_default sprache_default max_verwandte_default)
    as [d [Hd [_ Hf]]].
  - reflexivity.
  - reflexivity.
  - exists d. split; assumption.
Qed.

(** ** What the records hold *)

(** C3: in every result, no keyword of a record and no related query is
    empty after normalisation or rejected by [brand_safety_ok]. *)
Theorem no_empty_or_denylisted_output (P : Pytrends) (keywords : list string)
    (land zeitraum sprache : string) (max_verwandte : Z) :
  exists d,
    Eff.result (get_trend_daten_fuer_keywords P keywords land zeitraum sprache
                  max_verwandte) = Ok d
    /\ Forall (fun r => acceptable (keyword r)
                        /\ Forall acceptable (verwandte_suchanfragen r))
         (ergebnisse d).
Proof.
  destruct (tool_records
              (fun r => In (keyword r) (clean_keywords keywords)
                        /\ Forall acceptable (verwandte_suchanfragen r))
              P keywords land zeitraum sprache max_verwandte)
    as [d [Hd [_ Hf]]].
  - intros k Hk. split; [exact Hk | constructor].
  - intros batch iot related kw Hb Hkw _. split.
    + apply (batches_In _ batch); assumption.
    + apply record_verwandte_acceptable.
  - exists d. split; [exact Hd|].
    eapply Forall_impl; [|exact Hf].
    intros r [Hk Hv]. split; [|exact Hv].
    apply (clean_keywords_acceptable _ keywords), Hk.
Qed.

Lemma clean_keywords_surviving (keywords : list string) :
  clean_keywords keywords = surviving_keywords keywords.
Proof.
  unfold clean_keywords, surviving_keywords. rewrite dedupe_first_seen.
  f_equal. apply filter_ext. intros k. f_equal.
  destruct k; reflexivity.
Qed.

(** C4: on both paths the keywords of the records, in order, are the input
    after normalisation, removal of empty and denylisted entries and
    deduplication that keeps first occurrences; no keyword has two records,
    and a keyword has a record exactly when it is the normal form of an input
    that is neither empty nor denylisted. *)
Theorem keywords_in_first_seen_order (P : Pytrends) (keywords : list string)
    (land zeitraum sprache : string) (max_verwandte : Z) :
  exists d,
    Eff.result (get_trend_daten_fuer_keywords P keywords land zeitraum sprache
                  max_verwandte) = Ok d
    /\ map keyword (ergebnisse d) = surviving_keywords keywords
    /\ NoDup (map keyword (ergebnisse d))
    /\ (forall k, In k (map keyword (ergebnisse d)) <->
                  exists k0, In k0 keywords /\ k = _normalisiere_keyword k0
                             /\ k <> EmptyString /\ brand_safety_ok k = true).
Proof.
  destruct (tool_records (fun _ => True) P keywords land zeitraum sprache
              max_verwandte) as [d [Hd [Hk _]]]; [trivial | trivial |].
  exists d. split; [exact Hd|]. rewrite Hk. split; [|split].
  - apply clean_keywords_surviving.
  - apply clean_keywords_NoDup.
  - intros k. apply clean_keywords_In.
Qed.

(** ** The request form *)

Section RequestProperties.
Variables DataFrame Chart Results : Type.
Variable empty_frame : DataFrame.
Variable run_keyword_agent_async : string -> string -> Z -> Z -> outcome Results.
Variable present : Results -> outcome (App.outputs DataFrame Chart).

(** C5: with a topic that is not blank and two ages that [int] accepts, a
    minimum above the maximum or a negative age yields the error outputs,
    and the log of external calls is empty: the agent runner is not invoked. *)
Theorem invalid_ages_rejected_before_runner (thema : string)
    (artikeltext : option string) (alter_min alter_max : App.number) (a b : Z) :
  Str.strip thema <> EmptyString ->
  App.py_int alter_min = Ok a ->
  App.py_int alter_max = Ok b ->
  (a > b \/ a < 0 \/ b < 0)%Z ->
  App.process_request_async empty_frame run_keyword_agent_async present
    thema artikeltext alter_min alter_max
  = (Ok (App._make_error_outputs empty_frame App.msg_altersbereich), []).
Proof.
  intros Ht Ha Hb Hr. unfold App.process_request_async.
  destruct (Str.strip thema) as [|c t] eqn:Es; [congruence|].
  cbn [Str.truthy Str.is_empty negb].
  rewrite Ha, Hb. cbn [obind].
  assert (E : ((a <? 0) || (b <? 0) || (b <? a))%Z = true).
  { destruct Hr as [H | [H | H]].
    - assert ((b <? a) = true)%Z as -> by (apply Z.ltb_lt; lia).
      apply orb_true_r.
    - assert ((a <? 0) = true)%Z as -> by (apply Z.ltb_lt; lia). reflexivity.
    - assert ((b <? 0) = true)%Z as -> by (apply Z.ltb_lt; lia).
      rewrite orb_true_r. reflexivity. }
  rewrite E. reflexivity.
Qed.

End RequestProperties.

Lemma invalid_ages_rejected_before_runner_witness :
  App.process_request_async (Chart := unit) (Results := unit) tt
    (fun _ _ _ _ => Ok tt) (fun _ => Raised TypeError)
    " Kekse backen" None (App.NInt 30) (App.NFloat 49 (-1))
  = (Ok (App._make_error_outputs tt App.msg_altersbereich), []).
Proof.
  apply (invalid_ages_rejected_before_runner unit unit unit tt
           (fun _ _ _ _ => Ok tt) (fun _ => Raised TypeError)
           " Kekse backen" None (App.NInt 30) (App.NFloat 49 (-1)) 30 24).
  - vm_compute. discriminate.
  - reflexivity.
  - reflexivity.
  - left. lia.
Defined.

(** ** The number of related queries *)

(** C6, as stated, fails for a negative maximum: with [max_verwandte = -1]
    the sample service leaves one related query, more than the maximum. *)
Lemma negative_maximum_exceeded :
  exists d r,
    Eff.result (get_trend_daten_fuer_keywords pytrends_sample ["seo"]
                  "DE" "today 12-m" "de-DE" (-1)) = Ok d
    /\ In r (ergebnisse d)
    /\ verwandte_suchanfragen r = ["seo tipps"]
    /\ (-1 < Z.of_nat (length (verwandte_suchanfragen r)))%Z.
Proof.
  eexists. eexists. split; [reflexivity|].
  split; [left; reflexivity|]. split; [reflexivity|]. reflexivity.
Qed.

(** C6, amended: for a maximum [max_verwandte] that is not negative, every
    record of every result has at most [max_verwandte] related queries. *)
Theorem verwandte_within_maximum (P : Pytrends) (keywords : list string)
    (land zeitraum sprache : string) (max_verwandte : Z) :
  (0 <= max_verwandte)%Z ->
  exists d,
    Eff.result (get_trend_daten_fuer_keywords P keywords land zeitraum sprache
                  max_verwandte) = Ok d
    /\ Forall (fun r => (Z.of_nat (length (verwandte_suchanfragen r))
                         <= max_verwandte)%Z)
         (ergebnisse d).
Proof.
  intros Hm.
  destruct (tool_records
              (fun r => (Z.of_nat (length (verwandte_suchanfragen r))
                         <= max_verwandte)%Z)
              P keywords land zeitraum sprache max_verwandte)
    as [d [Hd [_ Hf]]].
  - intros k _. exact Hm.
  - intros batch iot related kw _ _ _. apply record_verwandte_length, Hm.
  - exists d. split; assumption.
Qed.

Lemma verwandte_within_maximum_witness :
  exists d,
    Eff.result (get_trend_daten_fuer_keywords pytrends_sample ["seo"; "kekse"]
                  "DE" "today 12-m" "de-DE" 2) = Ok d
    /\ Forall (fun r => (Z.of_nat (length (verwandte_suchanfragen r)) <= 2)%Z)
         (ergebnisse d).
Proof.
  apply (verwandte_within_maximum pytrends_sample ["seo"; "kekse"]
           "DE" "today 12-m" "de-DE" 2).
  lia.
Defined.

(** ** The trend index *)

Lemma successful_run (P : Pytrends) (keywords : list string)
    (land zeitraum sprache : string) (max_verwandte : Z) (d : TrendDaten) :
  Eff.result (get_trend_daten_fuer_keywords P keywords land zeitraum sprache
                max_verwandte) = Ok d ->
  trends_verfuegbar d = true ->
  Eff.result (trends_body P (clean_keywords keywords) land zeitraum sprache
                max_verwandte) = Ok d.
Proof.
  intros Hd Ht.
  destruct (tool_cases P keywords land zeitraum sprache max_verwandte)
    as [d' [Hd' Hc]].
  rewrite Hd in Hd'. injection Hd' as <-.
  destruct Hc as [[_ ->] | [[_ Hb] | [_ [e [_ ->]]]]];
    [discriminate | exact Hb | discriminate].
Qed.

(** C7, as stated, fails beyond the precision of a double: pandas takes the
    mean in [float64].  For a column whose only value is 2^53 + 1 the code
    gives 2^53, which is not the nearest integer to the mean; the value is
    not exact in double arithmetic. *)
Lemma mean_beyond_double_precision :
  trend_index_single (2 ^ 53 + 1) = (2 ^ 53)%Z
  /\ ~ nearest_to_mean (2 ^ 53) [(2 ^ 53 + 1)%Z]
  /\ ~ exact_in_double [(2 ^ 53 + 1)%Z].
Proof.
  split; [reflexivity|]. split.
  - unfold nearest_to_mean. simpl. lia.
  - unfold exact_in_double. simpl. lia.
Qed.

(** C7, amended: on the success path every surviving keyword has its record,
    and the [trend_index] of a record follows the time series that pytrends
    returned for the batch of its keyword.  When the values that are not null
    are integers whose absolute values sum to less than 2^52, it is an
    integer nearest to their mean; it is null when the frame has no column
    for the keyword, when the column has no value that is not null, and when
    one of its values is no number. *)
Theorem trend_index_is_rounded_mean (P : Pytrends) (keywords : list string)
    (land zeitraum sprache : string) (max_verwandte : Z) (d : TrendDaten) :
  Eff.result (get_trend_daten_fuer_keywords P keywords land zeitraum sprache
                max_verwandte) = Ok d ->
  trends_verfuegbar d = true ->
  map keyword (ergebnisse d) = clean_keywords keywords
  /\ Forall (fun r =>
               exists batch iot,
                 In batch (batches (clean_keywords keywords))
                 /\ In (keyword r) batch
                 /\ interest_over_time P (payload_of land zeitraum batch) = Ok iot
                 /\ trend_index_spec iot (keyword r) (trend_index r))
       (ergebnisse d).
Proof.
  intros Hd Ht.
  pose proof (successful_run P keywords land zeitraum sprache max_verwandte d Hd Ht)
    as Hb.
  pose proof (body_result P (clean_keywords keywords) land zeitraum sprache
                max_verwandte) as H.
  rewrite Hb in H. destruct H as [_ [Hk [Hall _]]].
  split; [exact Hk|].
  eapply Forall_impl; [|exact Hall].
  intros r [batch [iot [related [Hin [Hkw [Ea Er]]]]]].
  exists batch, iot. split; [exact Hin|]. split; [exact Hkw|].
  split; [apply (batch_answers_interest P _ iot related Ea)|].
  rewrite Er at 2. apply record_trend_index_spec.
Qed.

Lemma trend_index_is_rounded_mean_witness :
  map keyword (ergebnisse sample_result) = clean_keywords ["seo"; "leer"; "kekse"]
  /\ Forall (fun r =>
               exists batch iot,
                 In batch (batches (clean_keywords ["seo"; "leer"; "kekse"]))
                 /\ In (keyword r) batch
                 /\ interest_over_time pytrends_sample
                      (payload_of "DE" "today 12-m" batch) = Ok iot
                 /\ trend_index_spec iot (keyword r) (trend_index r))
       (ergebnisse sample_result).
Proof.
  apply (trend_index_is_rounded_mean pytrends_sample ["seo"; "leer"; "kekse"]
           "DE" "today 12-m" "de-DE" 5 sample_result).
  - reflexivity.
  - reflexivity.
Defined.

(** C8, as stated, fails: the tool does not clamp.  A service whose series
    holds 250 and 300 gives a [trend_index] of 275. *)
Lemma trend_index_above_100 :
  exists d r,
    Eff.result (get_trend_daten_fuer_keywords pytrends_loud ["seo"]
                  "DE" "today 12-m" "de-DE" 5) = Ok d
    /\ In r (ergebnisse d)
    /\ trend_index r = Some 275%Z
    /\ (100 < 275)%Z.
Proof.
  eexists. eexists. split; [reflexivity|].
  split; [left; reflexivity|]. split; reflexivity.
Qed.

(** C8, amended: every record of every result has a null [suchvolumen] and a
    [trend_index] that is null or an integer; when every value of the time
    series that pytrends delivers lies between 0 and 100, so does the
    integer. *)
Theorem trend_index_in_range (P : Pytrends) (keywords : list string)
    (land zeitraum sprache : string) (max_verwandte : Z) :
  series_in_range P ->
  exists d,
    Eff.result (get_trend_daten_fuer_keywords P keywords land zeitraum sprache
                  max_verwandte) = Ok d
    /\ Forall (fun r => suchvolumen r = None
                        /\ (trend_index r = None
                            \/ exists t, trend_index r = Some t
                                         /\ (0 <= t <= 100)%Z))
         (ergebnisse d).
Proof.
  intros Hr.
  destruct (tool_records
              (fun r => suchvolumen r = None
                        /\ (trend_index r = None
                            \/ exists t, trend_index r = Some t
                                         /\ (0 <= t <= 100)%Z))
              P keywords land zeitraum sprache max_verwandte)
    as [d [Hd [_ Hf]]].
  - intros k _. split; [reflexivity | left; reflexivity].
  - intros batch iot related kw _ _ Ea. split; [reflexivity|].
    apply batch_answers_interest in Ea. destruct Ea as [Ei _].
    pose proof (record_trend_index_range iot related max_verwandte kw) as H.
    destruct (trend_index (keyword_record iot related max_verwandte kw)) as [t|];
      [|left; reflexivity].
    right. exists t. split; [reflexivity|]. apply H.
    intros columns col z -> Hc Hz. apply (Hr _ columns kw col z Ei Hc Hz).
  - exists d. split; assumption.
Qed.

Lemma sample_series_in_range : series_in_range pytrends_sample.
Proof.
  intros p columns kw col z Hi Hc Hz. simpl in Hi. injection Hi as <-.
  destruct (String.eqb kw "seo");
    [|destruct (String.eqb kw "kekse"); [|destruct (String.eqb kw "leer")]];
    try discriminate; injection Hc as <-; simpl in Hz;
    repeat (destruct Hz as [Hz | Hz]; [try discriminate; injection Hz as <-; lia|]);
    contradiction.
Qed.

Lemma trend_index_in_range_witness :
  exists d,
    Eff.result (get_trend_daten_fuer_keywords pytrends_sample ["seo"; "leer"]
                  "DE" "today 12-m" "de-DE" 5) = Ok d
    /\ Forall (fun r => suchvolumen r = None
                        /\ (trend_index r = None
                            \/ exists t, trend_index r = Some t
                                         /\ (0 <= t <= 100)%Z))
         (ergebnisse d).
Proof.
  apply (trend_index_in_range pytrends_sample ["seo"; "leer"]
           "DE" "today 12-m" "de-DE" 5).
  exact sample_series_in_range.
Defined.

(** ** No keyword left *)

(** C9: when cleaning leaves no keyword, the tool returns at once:
    [trends_verfuegbar] is false, [ergebnisse] is empty, and the log of calls
    to pytrends is empty. *)
Theorem no_keywords_no_provider_call (P : Pytrends) (keywords : list string)
    (land zeitraum sprache : string) (max_verwandte : Z) :
  clean_keywords keywords = [] ->
  exists d,
    Eff.result (get_trend_daten_fuer_keywords P keywords land zeitraum sprache
                  max_verwandte) = Ok d
    /\ trends_verfuegbar d = false
    /\ ergebnisse d = []
    /\ Eff.trace (get_trend_daten_fuer_keywords P keywords land zeitraum sprache
                    max_verwandte) = [].
Proof.
  intros Hc. unfold get_trend_daten_fuer_keywords. cbv zeta. rewrite Hc.
  exists keine_keywords. repeat split.
Qed.

Lemma no_keywords_no_provider_call_witness :
  exists d,
    Eff.result (get_trend_daten_fuer_keywords pytrends_429 ["  "; "Kokain"; EmptyString]
                  "DE" "today 12-m" "de-DE" 5) = Ok d
    /\ trends_verfuegbar d = false
    /\ ergebnisse d = []
    /\ Eff.trace (get_trend_daten_fuer_keywords pytrends_429 ["  "; "Kokain"; EmptyString]
                    "DE" "today 12-m" "de-DE" 5) = [].
Proof.
  apply (no_keywords_no_provider_call pytrends_429 ["  "; "Kokain"; EmptyString]
           "DE" "today 12-m" "de-DE" 5).
  reflexivity.
Defined.

Example empty_list_no_call (P : Pytrends) :
  get_trend_daten_fuer_keywords P [] "DE" "today 12-m" "de-DE" 5
  = (Ok keine_keywords, []).
Proof. reflexivity. Qed.

(** ** Failures inside the loop *)

Lemma record_contained iot related max_verwandte kw :
  contained iot related max_verwandte
    (keyword_record iot related max_verwandte kw).
Proof.
  unfold contained. simpl.
  destruct (trend_index_body iot kw) as [t|e];
    destruct (verwandte_body related kw max_verwandte) as [v|e'];
    simpl; repeat split; intros; congruence.
Qed.

(** C10: when every call to pytrends returns, an exception inside one of the
    two inner [try] blocks stays with its keyword.  The tool returns with
    [trends_verfuegbar] true and one record per surviving keyword, and each
    record is built from its own keyword and the answers for its batch alone:
    a block that raises leaves null or the empty list, a block that returns
    leaves its value. *)
Theorem extraction_failure_contained (P : Pytrends) (keywords : list string)
    (land zeitraum sprache : string) (max_verwandte : Z) :
  clean_keywords keywords <> [] ->
  all_answered P (clean_keywords keywords) land zeitraum sprache ->
  exists d,
    Eff.result (get_trend_daten_fuer_keywords P keywords land zeitraum sprache
                  max_verwandte) = Ok d
    /\ trends_verfuegbar d = true
    /\ map keyword (ergebnisse d) = clean_keywords keywords
    /\ Forall (fun r =>
                 exists batch iot related,
                   built_from P (clean_keywords keywords) land zeitraum
                     max_verwandte r batch iot related
                   /\ contained iot related max_verwandte r)
         (ergebnisse d).
Proof.
  intros Hne [Hi [Ht Ha]].
  pose proof (body_result P (clean_keywords keywords) land zeitraum sprache
                max_verwandte) as H.
  destruct (tool_cases P keywords land zeitraum sprache max_verwandte)
    as [d [Hd [[Ec _] | [[_ Hb] | [_ [e [Hb _]]]]]]].
  - contradiction.
  - rewrite Hb in H. destruct H as [Htv [Hk [Hall _]]].
    exists d. split; [exact Hd|]. split; [exact Htv|]. split; [exact Hk|].
    eapply Forall_impl; [|exact Hall].
    intros r [batch [iot [related Hbf]]]. exists batch, iot, related.
    split; [exact Hbf|].
    destruct Hbf as [_ [_ [_ Er]]]. rewrite Er. apply record_contained.
  - exfalso. rewrite Hb in H.
    destruct H as [H | [H | [batch [Hin H]]]]; [congruence | congruence |].
    destruct (Ha batch Hin) as [iot [related Ea]].
    apply (batch_answers_ok P _ _ e Ea H).
Qed.

Lemma extraction_failure_contained_witness :
  exists d,
    Eff.result (get_trend_daten_fuer_keywords pytrends_sample ["seo"; "kekse"]
                  "DE" "today 12-m" "de-DE" 5) = Ok d
    /\ trends_verfuegbar d = true
    /\ map keyword (ergebnisse d) = clean_keywords ["seo"; "kekse"]
    /\ Forall (fun r =>
                 exists batch iot related,
                   built_from pytrends_sample (clean_keywords ["seo"; "kekse"])
                     "DE" "today 12-m" 5 r batch iot related
                   /\ contained iot related 5 r)
         (ergebnisse d).
Proof.
  apply (extraction_failure_contained pytrends_sample ["seo"; "kekse"]
           "DE" "today 12-m" "de-DE" 5).
  - vm_compute. discriminate.
  - split; [reflexivity|]. split; [reflexivity|].
    intros batch _. exists sample_iot, sample_related. reflexivity.
Defined.

(** With the sample service both inner blocks raise for "kekse"; its record
    is there with the defaults, and the record of "seo" is as without it. *)
Example kekse_raises :
  trend_index_body sample_iot "kekse" = Raised TypeError
  /\ verwandte_body sample_related "kekse" 5 = Raised AttributeError
  /\ Eff.result (get_trend_daten_fuer_keywords pytrends_sample ["seo"; "kekse"]
                   "DE" "today 12-m" "de-DE" 5)
     = Ok {| trends_verfuegbar := true;
             ergebnisse :=
               [ {| keyword := "seo"; trend_index := Some 50%Z; suchvolumen := None;
                    verwandte_suchanfragen := ["seo tipps"; "SEO Kurs"; "seo tool"] |};
                 fallback_record "kekse" ];
             hinweis := "trend_index ist ein Proxy (0-100) aus Google Trends; echtes Suchvolumen ist hier nicht enthalten." |}.
Proof. repeat split. Qed.

(** * Further properties of the code *)

(** ** [_normalisiere_keyword] *)

Lemma rstrip_keeps (c : ascii) (r : string) :
  Str.rstrip (String c r) = String c r ->
  Str.rstrip r = r /\ (Char.isspace c = true -> r <> EmptyString).
Proof.
  simpl. destruct (Char.isspace c) eqn:Ec; simpl.
  - destruct (Str.rstrip r) eqn:Er; simpl; [discriminate|].
    intros [= E]. split; [exact E|]. intros _ ->. discriminate.
  - intros [= E]. split; [exact E | discriminate].
Qed.

Lemma rstrip_rstrip (s : string) : Str.rstrip (Str.rstrip s) = Str.rstrip s.
Proof.
  induction s as [|c r IH]; [reflexivity|].
  simpl. destruct (Char.isspace c && Str.is_empty (Str.rstrip r)) eqn:E;
    [reflexivity|].
  simpl. rewrite IH, E. reflexivity.
Qed.

Lemma rstrip_lstrip (s : string) :
  Str.rstrip s = s -> Str.rstrip (Str.lstrip s) = Str.lstrip s.
Proof.
  induction s as [|c r IH]; [reflexivity|].
  intros H. destruct (rstrip_keeps c r H) as [Hr _].
  cbn [Str.lstrip]. destruct (Char.isspace c); [apply IH, Hr | exact H].
Qed.

Lemma rstrip_strip (s : string) : Str.rstrip (Str.strip s) = Str.strip s.
Proof. unfold Str.strip. apply rstrip_lstrip, rstrip_rstrip. Qed.

Lemma lstrip_lstrip (s : string) : Str.lstrip (Str.lstrip s) = Str.lstrip s.
Proof.
  induction s as [|c r IH]; [reflexivity|].
  simpl. destruct (Char.isspace c) eqn:Ec; [exact IH|].
  simpl. rewrite Ec. reflexivity.
Qed.

Lemma tidy_sub_ws (s : string) (b : bool) :
  s <> EmptyString -> Str.rstrip s = s -> tidy b (Str.sub_ws b s) = true.
Proof.
  revert b. induction s as [|c r IH]; intros b Hne Hr; [congruence|].
  destruct (rstrip_keeps c r Hr) as [Hr' Hc].
  cbn [Str.sub_ws]. destruct (Char.isspace c) eqn:Ec.
  - specialize (Hc eq_refl). destruct b.
    + apply IH; assumption.
    + cbn [tidy]. rewrite space_isspace. simpl. apply IH; assumption.
  - cbn [tidy]. rewrite Ec.
    destruct r as [|c' r']; [reflexivity|].
    apply IH; [discriminate | exact Hr'].
Qed.

Lemma tidy_weaken (s : string) : tidy true s = true -> tidy false s = true.
Proof.
  destruct s as [|c r]; simpl; [discriminate|].
  destruct (Char.isspace c); [discriminate | trivial].
Qed.

Lemma tidy_fixed (s : string) (b : bool) :
  tidy b s = true -> Str.sub_ws b s = s /\ Str.rstrip s = s.
Proof.
  revert b. induction s as [|c r IH]; intros b; [split; reflexivity|].
  cbn [tidy Str.sub_ws Str.rstrip]. destruct (Char.isspace c) eqn:Ec.
  - destruct b; [discriminate|]. cbn [negb andb].
    intros H. apply andb_true_iff in H. destruct H as [Hc Ht].
    apply Ascii.eqb_eq in Hc. destruct (IH true Ht) as [H1 H2].
    rewrite H1, H2. split; [congruence|].
    destruct r; [discriminate | reflexivity].
  - intros Ht. destruct (IH false Ht) as [H1 H2]. rewrite H1, H2.
    split; reflexivity.
Qed.

Lemma tidy_lstrip (s : string) : tidy true s = true -> Str.lstrip s = s.
Proof.
  destruct s as [|c r]; simpl; [reflexivity|].
  destruct (Char.isspace c); [discriminate | reflexivity].
Qed.

(** A normalised keyword is empty or tidy. *)
Lemma normalisiere_tidy (s : string) :
  _normalisiere_keyword s = EmptyString \/ tidy true (_normalisiere_keyword s) = true.
Proof.
  unfold _normalisiere_keyword.
  destruct (Str.strip s) as [|c r] eqn:E; [left; reflexivity|].
  right.
  assert (Hc : Char.isspace c = false) by (apply (lstrip_first _ _ _ E)).
  assert (Hs : Str.sub_ws false (String c r) = Str.sub_ws true (String c r))
    by (simpl; rewrite Hc; reflexivity).
  rewrite Hs. apply tidy_sub_ws; [discriminate|].
  rewrite <- E. apply rstrip_strip.
Qed.

Lemma tidy_normalisiere (s : string) :
  tidy true s = true -> _normalisiere_keyword s = s.
Proof.
  intros H. unfold _normalisiere_keyword, Str.strip.
  destruct (tidy_fixed s true H) as [_ Hr]. rewrite Hr.
  rewrite (tidy_lstrip s H).
  apply (tidy_fixed s false), tidy_weaken, H.
Qed.

Lemma normalisiere_twice (s : string) :
  _normalisiere_keyword (_normalisiere_keyword s) = _normalisiere_keyword s.
Proof.
  destruct (normalisiere_tidy s) as [H | H].
  - rewrite H. reflexivity.
  - apply tidy_normalisiere, H.
Qed.

(** X1: normalising twice is normalising once. *)
Theorem normalisiere_idempotent (s : string) :
  _normalisiere_keyword (_normalisiere_keyword s) = _normalisiere_keyword s.
Proof.
  destruct (normalisiere_tidy s) as [H | H].
  - rewrite H. reflexivity.
  - destruct (tidy_fixed _ true H) as [_ Hr].
    unfold _normalisiere_keyword at 1. unfold Str.strip.
    rewrite Hr, (tidy_lstrip _ H).
    apply (tidy_fixed _ false), tidy_weaken, H.
Qed.

Lemma tidy_nonempty_first (s : string) :
  tidy true s = true ->
  exists b r, s = String b r /\ Char.isspace b = false.
Proof.
  destruct s as [|c r]; simpl; [discriminate|].
  destruct (Char.isspace c) eqn:Ec; [discriminate|].
  intros _. exists c, r. split; [reflexivity | exact Ec].
Qed.

Lemma last_or_some (x : ascii) (s : string) :
  exists y, last_or (Some x) s = Some y.
Proof.
  revert x. induction s as [|c r IH]; intros x; simpl; [exists x; reflexivity|].
  apply IH.
Qed.

Lemma tidy_whitespace (pre : string) (c : ascii) (post : string) (b : bool) :
  tidy b (pre ++ String c post)%string = true ->
  Char.isspace c = true ->
  c = Char.space /\ tidy true post = true
  /\ match last_or None pre with
     | Some a => Char.isspace a = false
     | None => b = false
     end.
Proof.
  revert b. induction pre as [|a pre IH]; intros b; cbn [append tidy].
  - intros H Hc. rewrite Hc in H.
    apply andb_true_iff in H. destruct H as [H Ht].
    apply andb_true_iff in H. destruct H as [Hb He].
    apply Ascii.eqb_eq in He. destruct b; [discriminate|].
    split; [exact He|]. split; [exact Ht | reflexivity].
  - intros H Hc. destruct (Char.isspace a) eqn:Ea.
    + apply andb_true_iff in H. destruct H as [_ Ht].
      destruct (IH true Ht Hc) as [H1 [H2 H3]].
      split; [exact H1|]. split; [exact H2|]. simpl.
      destruct pre as [|a' pre']; [discriminate|].
      cbn [last_or] in H3 |- *.
      destruct (last_or_some a' pre') as [y Hy]. rewrite Hy in *. exact H3.
    + destruct (IH false H Hc) as [H1 [H2 H3]].
      split; [exact H1|]. split; [exact H2|]. simpl.
      destruct pre as [|a' pre']; [exact Ea|].
      cbn [last_or] in H3 |- *.
      destruct (last_or_some a' pre') as [y Hy]. rewrite Hy in *. exact H3.
Qed.

(** X2: every whitespace character of a normalised keyword is a single
    space that stands between two characters that are no whitespace; so the
    keyword neither starts nor ends with whitespace, and holds no run of
    whitespace. *)
Theorem normalisiere_whitespace (s pre post : string) (c : ascii) :
  _normalisiere_keyword s = (pre ++ String c post)%string ->
  Char.isspace c = true ->
  c = Char.space
  /\ (exists a, last_or None pre = Some a /\ Char.isspace a = false)
  /\ (exists b post', post = String b post' /\ Char.isspace b = false).
Proof.
  intros E Hc. destruct (normalisiere_tidy s) as [H | H].
  - rewrite H in E. destruct pre; discriminate.
  - rewrite E in H. destruct (tidy_whitespace pre c post true H Hc) as [H1 [H2 H3]].
    split; [exact H1|]. split.
    + destruct (last_or None pre) as [a|]; [exists a; auto | discriminate].
    + apply tidy_nonempty_first, H2.
Qed.

Lemma normalisiere_whitespace_witness :
  " "%char = Char.space
  /\ (exists a, last_or None "seo" = Some a /\ Char.isspace a = false)
  /\ (exists b post', "tipps" = String b post' /\ Char.isspace b = false).
Proof.
  apply (normalisiere_whitespace "  seo   tipps " "seo" "tipps" " "%char).
  - reflexivity.
  - reflexivity.
Defined.

(** X3: a keyword normalises to the empty string exactly when it holds
    nothing but whitespace. *)
Theorem normalisiere_empty_iff_blank (s : string) :
  _normalisiere_keyword s = EmptyString <-> Str.blank s = true.
Proof.
  unfold _normalisiere_keyword. split.
  - intros H. destruct (Str.blank s) eqn:E; [reflexivity|].
    rewrite <- blank_strip in E.
    apply (sub_ws_blank false) in E. rewrite H in E. discriminate.
  - intros H. rewrite <- blank_rstrip in H. apply lstrip_empty in H.
    unfold Str.strip. rewrite H. reflexivity.
Qed.

(** ** [_dedupe_preserve_order] *)

(** X4: the result has no duplicates and the same elements as the input. *)
Theorem dedupe_no_duplicates (items : list string) :
  NoDup (_dedupe_preserve_order items)
  /\ (forall x, In x (_dedupe_preserve_order items) <-> In x items).
Proof.
  rewrite dedupe_first_seen. split.
  - apply first_seen_NoDup.
  - intros x. apply first_seen_In.
Qed.

Lemma subseq_filter {A} (p : A -> bool) (l1 l2 : list A) :
  subseq l1 l2 -> subseq (filter p l1) l2.
Proof.
  induction 1 as [|x l1 l2 _ IH|x l1 l2 _ IH]; simpl.
  - constructor.
  - apply subseq_skip, IH.
  - destruct (p x); [apply subseq_keep, IH | apply subseq_skip, IH].
Qed.

(** X5: the result is the input with some elements left out: the order of
    the input is kept. *)
Theorem dedupe_subseq (items : list string) :
  subseq (_dedupe_preserve_order items) items.
Proof.
  rewrite dedupe_first_seen.
  induction items as [|x rest IH]; simpl.
  - constructor.
  - apply subseq_keep, subseq_filter, IH.
Qed.

Lemma filter_all {A} (p : A -> bool) (l : list A) :
  (forall a, In a l -> p a = true) -> filter p l = l.
Proof.
  induction l as [|a l IH]; simpl; intros H; [reflexivity|].
  rewrite (H a (or_introl eq_refl)). f_equal. apply IH.
  intros b Hb. apply H. right. exact Hb.
Qed.

(** X6: deduplicating a concatenation: the first part is deduplicated on its
    own, and of the second part what the first part holds is left out. *)
Theorem dedupe_app (l1 l2 : list string) :
  _dedupe_preserve_order (l1 ++ l2) =
  _dedupe_preserve_order l1
    ++ filter (fun y => negb (Str.mem y l1)) (_dedupe_preserve_order l2).
Proof.
  rewrite !dedupe_first_seen.
  induction l1 as [|x l1 IH]; simpl.
  - symmetry. apply filter_all. reflexivity.
  - f_equal. rewrite IH, filter_app. f_equal.
    rewrite filter_filter_and. apply filter_ext. intros a.
    rewrite (String.eqb_sym a x).
    destruct (String.eqb x a), (Str.mem a l1); reflexivity.
Qed.

Lemma first_seen_fixed (l : list string) : NoDup l -> first_seen l = l.
Proof.
  induction 1 as [|x l Hx _ IH]; simpl; [reflexivity|].
  rewrite IH. f_equal. apply filter_all.
  intros a Ha. destruct (String.eqb x a) eqn:E; [|reflexivity].
  apply String.eqb_eq in E. subst a. contradiction.
Qed.

(** X7: a list without duplicates comes back unchanged. *)
Theorem dedupe_fixed (items : list string) :
  NoDup items -> _dedupe_preserve_order items = items.
Proof.
  rewrite dedupe_first_seen.
  induction 1 as [|x l Hx _ IH]; simpl; [reflexivity|].
  rewrite IH. f_equal. apply filter_all.
  intros a Ha. destruct (String.eqb x a) eqn:E; [|reflexivity].
  apply String.eqb_eq in E. subst a. contradiction.
Qed.

Lemma dedupe_fixed_witness :
  _dedupe_preserve_order ["seo"; "kekse"; "Seo"] = ["seo"; "kekse"; "Seo"].
Proof.
  apply (dedupe_fixed ["seo"; "kekse"; "Seo"]).
  repeat constructor; simpl; intuition discriminate.
Defined.

(** X28: deduplicating twice is deduplicating once. *)
Theorem dedupe_idempotent (items : list string) :
  _dedupe_preserve_order (_dedupe_preserve_order items)
  = _dedupe_preserve_order items.
Proof.
  rewrite !dedupe_first_seen. apply first_seen_fixed, first_seen_NoDup.
Qed.

(** ** [brand_safety_ok] *)

Lemma literal_spec (w : string) (prev : option ascii) (s : string)
    (l : option ascii) (rest : string) :
  Re.literal w prev s = Some (l, rest) <->
  s = (w ++ rest)%string /\ l = last_or prev w.
Proof.
  revert prev s. induction w as [|a w IH]; intros prev s; simpl.
  - split.
    + intros [= <- <-]. split; reflexivity.
    + intros [-> ->]. reflexivity.
  - destruct s as [|c r].
    + split; [discriminate | intros [H _]; discriminate].
    + destruct (Ascii.eqb a c) eqn:E.
      * apply Ascii.eqb_eq in E. subst c. rewrite IH. split.
        -- intros [-> ->]. split; reflexivity.
        -- intros [[= ->] ->]. split; reflexivity.
      * apply Ascii.eqb_neq in E. split; [discriminate|].
        intros [[= H _] _]. congruence.
Qed.

Lemma match_here_spec (alts : list string) (prev : option ascii) (s : string) :
  Re.match_here alts prev s = true <->
  exists w post,
    In w alts /\ s = (w ++ post)%string
    /\ Re.boundary prev (Re.first s) = true
    /\ Re.boundary (last_or prev w) (Re.first post) = true.
Proof.
  unfold Re.match_here. rewrite andb_true_iff, existsb_exists. split.
  - intros [Hb [w [Hw H]]].
    destruct (Re.literal w prev s) as [[l rest]|] eqn:E; [|discriminate].
    apply literal_spec in E. destruct E as [-> ->].
    exists w, rest. auto.
  - intros [w [post [Hw [Hs [Hb He]]]]]. split; [exact Hb|].
    exists w. split; [exact Hw|].
    assert (E : Re.literal w prev s = Some (last_or prev w, post))
      by (apply literal_spec; auto).
    rewrite E. exact He.
Qed.

Lemma search_from_spec (alts : list string) (prev : option ascii) (s : string) :
  Re.search_from alts prev s = true <->
  exists w pre post,
    In w alts /\ s = (pre ++ w ++ post)%string
    /\ Re.boundary (last_or prev pre) (Re.first (w ++ post)) = true
    /\ Re.boundary (last_or prev (pre ++ w)) (Re.first post) = true.
Proof.
  split.
  - revert prev. induction s as [|c r IH]; intros prev; cbn [Re.search_from];
      rewrite orb_true_iff; intros [H | H]; try discriminate.
    + apply match_here_spec in H. destruct H as [w [post [Hw [Hs [Hb He]]]]].
      exists w, EmptyString, post. rewrite <- Hs. auto.
    + apply match_here_spec in H. destruct H as [w [post [Hw [Hs [Hb He]]]]].
      exists w, EmptyString, post. cbn [append last_or]. rewrite <- Hs. auto.
    + apply IH in H. destruct H as [w [pre [post [Hw [Hs [Hb He]]]]]].
      exists w, (String c pre), post. cbn [append last_or]. rewrite <- Hs. auto.
  - intros [w [pre [post [Hw [Hs [Hb He]]]]]]. subst s.
    revert prev Hb He. induction pre as [|c pre IH]; intros prev Hb He.
    + cbn [append last_or] in *.
      assert (Hm : Re.match_here alts prev (w ++ post) = true).
      { apply match_here_spec. exists w, post. auto. }
      destruct (w ++ post)%string; cbn [Re.search_from]; rewrite Hm; reflexivity.
    + cbn [append last_or Re.search_from] in *.
      rewrite (IH (Some c) Hb He). apply orb_true_r.
Qed.

(** Searching a pattern finds exactly the alternatives that stand between
    two word boundaries. *)
Lemma search_spec (alts : list string) (s : string) :
  Re.search alts s = true <-> exists w, In w alts /\ occurs_as_word w s.
Proof.
  unfold Re.search, occurs_as_word. rewrite search_from_spec. split.
  - intros [w [pre [post [Hw H]]]]. exists w. split; [exact Hw|].
    exists pre, post. exact H.
  - intros [w [Hw [pre [post H]]]]. exists w, pre, post. auto.
Qed.

(** X8: a keyword is rejected exactly when its lower-case form holds one of
    the denylisted phrases between two word boundaries. *)
Theorem brand_safety_rejects_iff (keyword : string) :
  brand_safety_ok keyword = false <->
  exists pat w,
    In pat _VERBOTENE_MUSTER /\ In w pat
    /\ occurs_as_word w (Str.lower keyword).
Proof.
  unfold brand_safety_ok. cbv zeta. rewrite negb_false_iff, existsb_exists. split.
  - intros [pat [Hp H]]. apply search_spec in H. destruct H as [w [Hw H]].
    exists pat, w. auto.
  - intros [pat [w [Hp [Hw H]]]]. exists pat. split; [exact Hp|].
    apply search_spec. exists w. auto.
Qed.

Lemma char_lower_lower (c : ascii) : Char.lower (Char.lower c) = Char.lower c.
Proof. destruct c as [[] [] [] [] [] [] [] []]; reflexivity. Qed.

(** X9: the verdict does not depend on the case of the letters: a keyword
    and its lower-case form get the same verdict. *)
Theorem brand_safety_ignores_case (keyword : string) :
  brand_safety_ok (Str.lower keyword) = brand_safety_ok keyword.
Proof.
  unfold brand_safety_ok. cbv zeta.
  replace (Str.lower (Str.lower keyword)) with (Str.lower keyword);
    [reflexivity|].
  induction keyword as [|c r IH]; simpl; [reflexivity|].
  rewrite char_lower_lower, <- IH. reflexivity.
Qed.

(** ** The calls [get_trend_daten_fuer_keywords] makes *)

Lemma trace_bind {event A B} (m : @Eff.M event A) (k : A -> @Eff.M event B) :
  Eff.trace (Eff.bind m k) =
  Eff.trace m ++ match Eff.result m with
                 | Ok a => Eff.trace (k a)
                 | Raised _ => []
                 end.
Proof.
  destruct m as [[a|e] t]; simpl; [|symmetry; apply app_nil_r].
  destruct (k a); reflexivity.
Qed.

Lemma trace_call {event A} (ev : event) (r : outcome A) :
  Eff.trace (Eff.call ev r) = [ev].
Proof. reflexivity. Qed.

Lemma trace_try_except {event A} (body : @Eff.M event A)
    (handler : PyException -> @Eff.M event A) :
  Eff.trace (Eff.try_except body handler) =
  Eff.trace body ++ match Eff.result body with
                    | Ok _ => []
                    | Raised e => Eff.trace (handler e)
                    end.
Proof.
  destruct body as [[a|e] t]; simpl; [symmetry; apply app_nil_r|].
  destruct (handler e); reflexivity.
Qed.

Lemma built_payloads_app (t1 t2 : list call_event) :
  built_payloads (t1 ++ t2) = built_payloads t1 ++ built_payloads t2.
Proof.
  induction t1 as [|ev t1 IH]; simpl; [reflexivity|].
  destruct ev; simpl; rewrite IH; reflexivity.
Qed.

Lemma built_payloads_In (p : payload) (t : list call_event) :
  In (EvBuildPayload p) t -> In p (built_payloads t).
Proof.
  induction t as [|ev t IH]; simpl; [tauto|].
  intros [-> | H]; [left; reflexivity|].
  destruct ev; simpl; auto.
Qed.

Section Calls.
Variable P : Pytrends.
Variables (cleaned : list string) (land zeitraum : string) (max_verwandte : Z).

(** One turn of the loop builds the payload of its batch and makes at most
    three calls, three when it returns. *)
Lemma batch_step_trace (i : nat) (erg : list Ergebnis) :
  let m := batch_step P cleaned land zeitraum max_verwandte i erg in
  built_payloads (Eff.trace m) = [payload_of land zeitraum (batch_at cleaned i)]
  /\ length (Eff.trace m) <= 3
  /\ (forall out, Eff.result m = Ok out -> length (Eff.trace m) = 3).
Proof.
  unfold batch_step, payload_of, batch_at.
  unfold Eff.result, Eff.trace, Eff.bind, Eff.call, Eff.ret. cbv zeta.
  destruct (build_payload P _) as [[]|e1]; cbn [fst snd app built_payloads length].
  2: { repeat split; [lia | discriminate]. }
  destruct (interest_over_time P _) as [iot|e2];
    cbn [fst snd app built_payloads length].
  2: { repeat split; [lia | discriminate]. }
  destruct (related_queries P _) as [related|e3];
    cbn [fst snd app built_payloads length]; repeat split; try lia; discriminate.
Qed.

(** The loop works through a front part of its indices: it builds their
    payloads in order, with at most three calls each, and it returns only
    when it has worked through all of them. *)
Lemma loop_trace (idxs : list nat) (erg : list Ergebnis) :
  let m := Eff.for_each idxs (batch_step P cleaned land zeitraum max_verwandte) erg in
  exists done rest,
    idxs = done ++ rest
    /\ built_payloads (Eff.trace m)
       = map (fun i => payload_of land zeitraum (batch_at cleaned i)) done
    /\ length (Eff.trace m) <= 3 * length done
    /\ (forall out, Eff.result m = Ok out ->
        rest = [] /\ length (Eff.trace m) = 3 * length idxs).
Proof.
  cbv zeta. revert erg. induction idxs as [|i more IH]; intros erg.
  - exists [], []. simpl. repeat split; try lia.
  - cbn [Eff.for_each]. rewrite trace_bind, result_bind.
    destruct (batch_step_trace i erg) as [Hp [Hl Hok]]. cbv zeta in Hp, Hl, Hok.
    destruct (Eff.result (batch_step P cleaned land zeitraum max_verwandte i erg))
      as [erg'|e] eqn:Er.
    + destruct (IH erg') as [done [rest [-> [Hb [Hlen Hret]]]]].
      exists (i :: done), rest. split; [reflexivity|].
      rewrite built_payloads_app, length_app, Hp, Hb.
      specialize (Hok erg' eq_refl). split; [reflexivity|].
      split; [simpl length; lia|].
      cbn [obind]. intros out Hout. destruct (Hret out Hout) as [-> Hl'].
      split; [reflexivity|]. rewrite Hl'. simpl length. lia.
    + exists [i], more. rewrite app_nil_r. split; [reflexivity|].
      split; [exact Hp|]. split; [simpl length; lia|].
      cbn [obind]. discriminate.
Qed.

End Calls.

Lemma body_trace (P : Pytrends) (cleaned : list string)
    (land zeitraum sprache : string) (max_verwandte : Z) :
  let m := trends_body P cleaned land zeitraum sprache max_verwandte in
  exists done rest,
    batches cleaned = done ++ rest
    /\ built_payloads (Eff.trace m) = map (payload_of land zeitraum) done
    /\ length (Eff.trace m) <= 2 + 3 * length done
    /\ (forall d, Eff.result m = Ok d ->
        rest = [] /\ length (Eff.trace m) = 2 + 3 * length (batches cleaned)).
Proof.
  cbv zeta. unfold trends_body.
  rewrite trace_bind, trace_call, result_bind, result_call.
  destruct (import_modules P) as [[]|e]; cbn [obind]; cbv beta iota.
  2: { exists [], (batches cleaned). split; [reflexivity|].
       split; [reflexivity|]. split; [simpl; lia|]. intros d H. discriminate. }
  rewrite trace_bind, trace_call, result_bind, result_call.
  destruct (TrendReq P sprache 360) as [[]|e]; cbn [obind]; cbv beta iota.
  2: { exists [], (batches cleaned). split; [reflexivity|].
       split; [reflexivity|]. split; [simpl; lia|]. intros d H. discriminate. }
  rewrite trace_bind, result_bind.
  destruct (loop_trace P cleaned land zeitraum max_verwandte
              (py_range 0 (length cleaned) BATCH_SIZE) [])
    as [done [rest [Hi [Hb [Hl Hret]]]]]. cbv zeta in Hb, Hl, Hret.
  exists (map (batch_at cleaned) done), (map (batch_at cleaned) rest).
  split; [unfold batches; rewrite Hi, map_app; reflexivity|].
  destruct (Eff.result (Eff.for_each _ _ _)) as [out|e] eqn:Er.
  - destruct (Hret out eq_refl) as [-> Hlen].
    cbn [built_payloads Eff.ret snd obind]. rewrite !app_nil_r, map_map.
    split; [exact Hb|]. rewrite !length_app, length_map. cbn [length].
    split; [lia|]. intros d _. split; [reflexivity|].
    unfold batches. rewrite length_map. lia.
  - cbn [built_payloads obind]. rewrite !app_nil_r, map_map.
    split; [exact Hb|]. rewrite !length_app, length_map. cbn [length].
    split; [lia | discriminate].
Qed.

(** The log of a call of the tool, against the batches of the cleaned list. *)
Lemma tool_trace (P : Pytrends) (keywords : list string)
    (land zeitraum sprache : string) (max_verwandte : Z) :
  let m := get_trend_daten_fuer_keywords P keywords land zeitraum sprache
             max_verwandte in
  exists done rest,
    batches (clean_keywords keywords) = done ++ rest
    /\ built_payloads (Eff.trace m) = map (payload_of land zeitraum) done
    /\ length (Eff.trace m) <= 2 + 3 * length done
    /\ (forall d, Eff.result m = Ok d -> trends_verfuegbar d = true ->
        rest = []
        /\ length (Eff.trace m) = 2 + 3 * length (batches (clean_keywords keywords))).
Proof.
  cbv zeta. unfold get_trend_daten_fuer_keywords. cbv zeta.
  destruct (clean_keywords keywords) as [|k more] eqn:Ec.
  - exists [], []. split; [reflexivity|]. split; [reflexivity|].
    split; [simpl; lia|]. intros d [= <-] Ht. discriminate.
  - rewrite trace_try_except, result_try_except.
    destruct (body_trace P (k :: more) land zeitraum sprache max_verwandte)
      as [done [rest [Hb [Hp [Hl Hret]]]]]. cbv zeta in Hp, Hl, Hret.
    exists done, rest. split; [exact Hb|].
    destruct (Eff.result (trends_body P (k :: more) land zeitraum sprache
                            max_verwandte)) as [d|e].
    + rewrite app_nil_r. split; [exact Hp|]. split; [exact Hl|].
      intros d' _ _. apply (Hret d eq_refl).
    + cbn [Eff.trace Eff.ret snd]. rewrite app_nil_r.
      split; [exact Hp|]. split; [exact Hl|].
      cbn [Eff.result Eff.ret fst]. intros d [= <-]. discriminate.
Qed.

Lemma batches_length (cleaned : list string) :
  length (batches cleaned) = (length cleaned + 4) / 5.
Proof. rewrite batches_chunks, length_map, length_seq. reflexivity. Qed.

(** Every batch holds between one and five keywords of the cleaned list,
    none of them twice when the list holds none twice. *)
Lemma batches_shape (cleaned batch : list string) :
  NoDup cleaned -> In batch (batches cleaned) ->
  1 <= length batch <= 5 /\ NoDup batch /\ (forall k, In k batch -> In k cleaned).
Proof.
  intros Hnd Hb. split; [|split].
  - rewrite batches_chunks in Hb. apply in_map_iff in Hb.
    destruct Hb as [k [<- Hk]]. apply in_seq in Hk.
    unfold BATCH_SIZE in *. simpl Nat.sub in Hk.
    pose proof (Nat.div_mod_eq (length cleaned + 4) 5) as Hd.
    pose proof (Nat.mod_upper_bound (length cleaned + 4) 5 ltac:(lia)) as Hm.
    rewrite length_firstn, length_skipn. lia.
  - rewrite batches_chunks in Hb. apply in_map_iff in Hb.
    destruct Hb as [k [<- _]].
    assert (Hs : NoDup (skipn (k * BATCH_SIZE) cleaned)).
    { rewrite <- (firstn_skipn (k * BATCH_SIZE) cleaned) in Hnd.
      apply NoDup_app_remove_l in Hnd. exact Hnd. }
    rewrite <- (firstn_skipn BATCH_SIZE (skipn (k * BATCH_SIZE) cleaned)) in Hs.
    apply NoDup_app_remove_r in Hs. exact Hs.
  - intros k. apply batches_In, Hb.
Qed.

(** X10: the payloads the tool builds are the batches of the cleaned list,
    in order and without gaps, up to the point where the run ends: no batch
    is sent twice, none out of turn, and nothing that is no batch. *)
Theorem payloads_follow_batches (P : Pytrends) (keywords : list string)
    (land zeitraum sprache : string) (max_verwandte : Z) :
  exists rest,
    map (payload_of land zeitraum) (batches (clean_keywords keywords))
    = built_payloads
        (Eff.trace (get_trend_daten_fuer_keywords P keywords land zeitraum
                      sprache max_verwandte)) ++ rest.
Proof.
  destruct (tool_trace P keywords land zeitraum sprache max_verwandte)
    as [done [rest [Hb [Hp _]]]]. cbv zeta in Hp.
  exists (map (payload_of land zeitraum) rest).
  rewrite Hb, map_app, Hp. reflexivity.
Qed.

(** X11: a payload handed to [build_payload] holds at least one and at most
    five keywords, all of them cleaned keywords and none twice, together with
    the time frame and the country of the call. *)
Theorem payload_within_batch_size (P : Pytrends) (keywords : list string)
    (land zeitraum sprache : string) (max_verwandte : Z) (p : payload) :
  In (EvBuildPayload p)
    (Eff.trace (get_trend_daten_fuer_keywords P keywords land zeitraum sprache
                  max_verwandte)) ->
  1 <= length (kw_list p) <= 5
  /\ NoDup (kw_list p)
  /\ (forall k, In k (kw_list p) -> In k (clean_keywords keywords))
  /\ timeframe p = zeitraum /\ geo p = land.
Proof.
  intros Hin. apply built_payloads_In in Hin.
  destruct (tool_trace P keywords land zeitraum sprache max_verwandte)
    as [done [rest [Hb [Hp _]]]]. cbv zeta in Hp.
  rewrite Hp in Hin. apply in_map_iff in Hin. destruct Hin as [batch [<- Hd]].
  assert (Hbatch : In batch (batches (clean_keywords keywords)))
    by (rewrite Hb; apply in_or_app; left; exact Hd).
  destruct (batches_shape _ batch (clean_keywords_NoDup keywords) Hbatch)
    as [H1 [H2 H3]].
  simpl. repeat split; auto; lia.
Qed.

Lemma payload_within_batch_size_witness :
  1 <= length ["a"; "b"; "c"; "d"; "e"] <= 5
  /\ NoDup ["a"; "b"; "c"; "d"; "e"]
  /\ (forall k, In k ["a"; "b"; "c"; "d"; "e"] ->
                In k (clean_keywords ["a"; "b"; "c"; "d"; "e"; "f"; "a"]))
  /\ "today 12-m" = "today 12-m" /\ "DE" = "DE".
Proof.
  apply (payload_within_batch_size pytrends_sample
           ["a"; "b"; "c"; "d"; "e"; "f"; "a"] "DE" "today 12-m" "de-DE" 5
           (payload_of "DE" "today 12-m" ["a"; "b"; "c"; "d"; "e"])).
  vm_compute. right. right. left. reflexivity.
Defined.

(** X12: a call of the tool makes at most two calls to set pytrends up and
    three per batch of five cleaned keywords. *)
Theorem call_count_bound (P : Pytrends) (keywords : list string)
    (land zeitraum sprache : string) (max_verwandte : Z) :
  length (Eff.trace (get_trend_daten_fuer_keywords P keywords land zeitraum
                       sprache max_verwandte))
  <= 2 + 3 * ((length (clean_keywords keywords) + 4) / 5).
Proof.
  destruct (tool_trace P keywords land zeitraum sprache max_verwandte)
    as [done [rest [Hb [_ [Hl _]]]]]. cbv zeta in Hl.
  pose proof (batches_length (clean_keywords keywords)) as Hn.
  rewrite Hb, length_app in Hn. lia.
Qed.

(** X13: a call that ends with [trends_verfuegbar] true has made exactly
    these calls: two to set pytrends up and three for every batch. *)
Theorem call_count_success (P : Pytrends) (keywords : list string)
    (land zeitraum sprache : string) (max_verwandte : Z) (d : TrendDaten) :
  Eff.result (get_trend_daten_fuer_keywords P keywords land zeitraum sprache
                max_verwandte) = Ok d ->
  trends_verfuegbar d = true ->
  length (Eff.trace (get_trend_daten_fuer_keywords P keywords land zeitraum
                       sprache max_verwandte))
  = 2 + 3 * ((length (clean_keywords keywords) + 4) / 5).
Proof.
  intros Hd Ht.
  destruct (tool_trace P keywords land zeitraum sprache max_verwandte)
    as [done [rest [_ [_ [_ Hret]]]]]. cbv zeta in Hret.
  destruct (Hret d Hd Ht) as [_ Hl]. rewrite Hl, batches_length. reflexivity.
Qed.

Lemma call_count_success_witness :
  length (Eff.trace (get_trend_daten_fuer_keywords pytrends_sample
                       ["a"; "b"; "c"; "d"; "e"; "f"; "a"]
                       "DE" "today 12-m" "de-DE" 5))
  = 2 + 3 * ((length (clean_keywords ["a"; "b"; "c"; "d"; "e"; "f"; "a"]) + 4) / 5).
Proof.
  eapply (call_count_success pytrends_sample ["a"; "b"; "c"; "d"; "e"; "f"; "a"]
            "DE" "today 12-m" "de-DE" 5).
  - reflexivity.
  - reflexivity.
Defined.

(** ** The result of [get_trend_daten_fuer_keywords] *)

(** X14: [trends_verfuegbar] is true exactly when a keyword is left after
    cleaning and every call to pytrends returned. *)
Theorem trends_flag_iff (P : Pytrends) (keywords : list string)
    (land zeitraum sprache : string) (max_verwandte : Z) :
  exists d,
    Eff.result (get_trend_daten_fuer_keywords P keywords land zeitraum sprache
                  max_verwandte) = Ok d
    /\ (trends_verfuegbar d = true <->
        clean_keywords keywords <> []
        /\ all_answered P (clean_keywords keywords) land zeitraum sprache).
Proof.
  pose proof (body_result P (clean_keywords keywords) land zeitraum sprache
                max_verwandte) as H.
  destruct (tool_cases P keywords land zeitraum sprache max_verwandte)
    as [d [Hd [[Ec ->] | [[Hne Hb] | [Hne [e [Hb ->]]]]]]].
  - exists keine_keywords. split; [exact Hd|]. split; [discriminate|].
    intros [Hne _]. contradiction.
  - exists d. split; [exact Hd|]. rewrite Hb in H.
    destruct H as [Ht [_ [_ Ha]]]. split; auto.
  - exists (nicht_verfuegbar (clean_keywords keywords) e).
    split; [exact Hd|]. split; [discriminate|].
    intros [_ [Hi [Ht Ha]]]. exfalso. rewrite Hb in H.
    destruct H as [H | [H | [batch [Hin H]]]]; [congruence | congruence |].
    destruct (Ha batch Hin) as [iot [related Ea]].
    apply (batch_answers_ok P _ _ e Ea H).
Qed.

Lemma clean_related_normalised (raw : list qcell) :
  Forall (fun x => _normalisiere_keyword x = x) (clean_related raw).
Proof.
  apply Forall_forall. intros x Hx. unfold clean_related in Hx.
  rewrite dedupe_first_seen in Hx. apply (proj1 (first_seen_In _ _)) in Hx.
  apply (proj1 (filter_In _ _ _)) in Hx. destruct Hx as [Hin _].
  apply normalise_strs_In in Hin. destruct Hin as [y ->].
  apply normalisiere_twice.
Qed.

(** X15: in every result the keyword of a record and its related queries
    are in normal form (normalising them changes nothing), and no related
    query stands twice in a record. *)
Theorem output_strings_normalised (P : Pytrends) (keywords : list string)
    (land zeitraum sprache : string) (max_verwandte : Z) :
  exists d,
    Eff.result (get_trend_daten_fuer_keywords P keywords land zeitraum sprache
                  max_verwandte) = Ok d
    /\ Forall (fun r =>
                 _normalisiere_keyword (keyword r) = keyword r
                 /\ NoDup (verwandte_suchanfragen r)
                 /\ Forall (fun x => _normalisiere_keyword x = x)
                      (verwandte_suchanfragen r))
         (ergebnisse d).
Proof.
  destruct (tool_records
              (fun r => In (keyword r) (clean_keywords keywords)
                        /\ NoDup (verwandte_suchanfragen r)
                        /\ Forall (fun x => _normalisiere_keyword x = x)
                             (verwandte_suchanfragen r))
              P keywords land zeitraum sprache max_verwandte)
    as [d [Hd [_ Hf]]].
  - intros k Hk. split; [exact Hk|]. split; constructor.
  - intros batch iot related kw Hb Hkw _.
    split; [apply (batches_In _ batch); assumption|]. simpl.
    destruct (verwandte_body related kw max_verwandte) as [v|e] eqn:E; simpl.
    + apply verwandte_body_ok in E. destruct E as [raw [-> _]].
      split; [apply clean_related_NoDup | apply clean_related_normalised].
    + split; constructor.
  - exists d. split; [exact Hd|].
    eapply Forall_impl; [|exact Hf].
    intros r [Hk Hv]. split; [|exact Hv].
    apply clean_keywords_In in Hk. destruct Hk as [k0 [_ [-> _]]].
    apply normalisiere_twice.
Qed.

(** X16: when the frame of rising queries holds at least [max_verwandte]
    rows, the related queries are the cleaned first [max_verwandte] rising
    queries; the frame of top queries is not consulted, whatever it is. *)
Theorem rising_fills_first (iot : iot_obj) (entries : string -> option rq_obj)
    (kw : string) (top : option frame) (q : list qcell) (max_verwandte : Z) :
  entries kw = Some (RqDict top (Some (QueryFrame q))) ->
  (0 <= max_verwandte <= Z.of_nat (length q))%Z ->
  verwandte_suchanfragen
    (keyword_record iot (RelatedDict entries) max_verwandte kw)
  = clean_related (firstn (Z.to_nat max_verwandte) q).
Proof.
  intros He Hm. simpl. unfold verwandte_body. rewrite He.
  assert (Hh : head q max_verwandte = firstn (Z.to_nat max_verwandte) q).
  { unfold head. destruct (0 <=? max_verwandte)%Z eqn:E; [reflexivity | lia]. }
  assert (Hl : length (firstn (Z.to_nat max_verwandte) q)
               = Z.to_nat max_verwandte) by (apply firstn_length_le; lia).
  destruct q as [|c q'].
  - cbn [frame_empty negb obind]. cbn [length Z.of_nat].
    assert (max_verwandte = 0)%Z as -> by (simpl in Hm; lia).
    destruct top as [df|]; [|reflexivity].
    rewrite andb_false_r. reflexivity.
  - cbn [frame_empty negb query_column obind app]. rewrite Hh.
    assert (Hc : (Z.of_nat (length (firstn (Z.to_nat max_verwandte) (c :: q')))
                  <? max_verwandte)%Z = false)
      by (rewrite Hl; apply Z.ltb_ge; lia).
    destruct top as [df|]; [|reflexivity].
    rewrite Hc, andb_false_r. reflexivity.
Qed.

Lemma rising_fills_first_witness :
  verwandte_suchanfragen
    (keyword_record sample_iot
       (RelatedDict (fun _ => Some (RqDict (Some (PlainFrame 3))
                                      (Some (QueryFrame [QStr "b"; QStr " a "; QStr "c"])))))
       2 "seo")
  = clean_related (firstn (Z.to_nat 2) [QStr "b"; QStr " a "; QStr "c"]).
Proof.
  apply (rising_fills_first sample_iot
           (fun _ => Some (RqDict (Some (PlainFrame 3))
                             (Some (QueryFrame [QStr "b"; QStr " a "; QStr "c"]))))
           "seo" (Some (PlainFrame 3)) [QStr "b"; QStr " a "; QStr "c"] 2).
  - reflexivity.
  - simpl. lia.
Defined.

Lemma round_half_even_exact (m n : Z) :
  (0 < n)%Z -> round_half_even (m * n) n = m.
Proof.
  intros Hn. unfold round_half_even.
  rewrite Z.div_mul by lia. rewrite Z.mod_mul by lia.
  assert ((2 * 0 <? n) = true)%Z as -> by (apply Z.ltb_lt; lia).
  reflexivity.
Qed.

Lemma round_half_even_tie (s m n : Z) :
  (0 < n)%Z -> (2 * s = (2 * m + 1) * n)%Z ->
  round_half_even s n = if Z.even m then m else (m + 1)%Z.
Proof.
  intros Hn Hs. unfold round_half_even.
  assert (Hq : (s / n = m)%Z).
  { symmetry. apply (Z.div_unique_pos s n m (s - n * m)); nia. }
  assert (Hr : (s mod n = s - n * m)%Z).
  { symmetry. apply (Z.mod_unique_pos s n m (s - n * m)); nia. }
  rewrite Hq, Hr.
  assert ((2 * (s - n * m) <? n) = false)%Z as -> by (apply Z.ltb_ge; nia).
  assert ((n <? 2 * (s - n * m)) = false)%Z as -> by (apply Z.ltb_ge; nia).
  reflexivity.
Qed.

Lemma record_trend_index_numbers (columns : string -> option (list cell))
    (related : related_obj) (max_verwandte : Z) (kw : string)
    (col : list cell) (vs : list Z) :
  columns kw = Some col -> dropna col = map Num vs -> vs <> [] ->
  trend_index (keyword_record (IotFrame columns) related max_verwandte kw)
  = Some (round_half_even (fold_right Z.add 0%Z vs) (Z.of_nat (length vs))).
Proof.
  intros Hc Hd Hne. simpl. unfold trend_index_body. rewrite Hc, Hd, length_map.
  destruct vs as [|v vs]; [congruence|].
  change (0 <? length (v :: vs))%nat with true. cbv iota.
  rewrite series_sum_numbers. reflexivity.
Qed.

(** X17: when the values that are not null are integers whose absolute
    values sum to less than 2^52 and their mean is an integer, the
    [trend_index] is that integer; so a constant series gives its value. *)
Theorem integer_mean_exact (columns : string -> option (list cell))
    (related : related_obj) (max_verwandte : Z) (kw : string)
    (col : list cell) (vs : list Z) (m : Z) :
  columns kw = Some col -> dropna col = map Num vs -> vs <> [] ->
  exact_in_double vs ->
  fold_right Z.add 0%Z vs = (m * Z.of_nat (length vs))%Z ->
  trend_index (keyword_record (IotFrame columns) related max_verwandte kw)
  = Some m.
Proof.
  intros Hc Hd Hne _ Hs.
  rewrite (record_trend_index_numbers columns related max_verwandte kw col vs Hc Hd Hne).
  rewrite Hs, round_half_even_exact; [reflexivity|].
  destruct vs; [congruence | simpl length; lia].
Qed.

Lemma integer_mean_exact_witness :
  trend_index
    (keyword_record
       (IotFrame (fun _ => Some [Num 70; NaN; Num 72; Num 74])) sample_related 5 "seo")
  = Some 72%Z.
Proof.
  apply (integer_mean_exact (fun _ => Some [Num 70; NaN; Num 72; Num 74])
           sample_related 5 "seo" [Num 70; NaN; Num 72; Num 74] [70; 72; 74]%Z 72).
  - reflexivity.
  - reflexivity.
  - discriminate.
  - unfold exact_in_double. simpl. lia.
  - reflexivity.
Defined.

(** X18: when the values that are not null are integers whose absolute
    values sum to less than 2^52 and their mean lies halfway between the
    integers [m] and [m + 1], the [trend_index] is the even one of the two. *)
Theorem half_mean_goes_to_even (columns : string -> option (list cell))
    (related : related_obj) (max_verwandte : Z) (kw : string)
    (col : list cell) (vs : list Z) (m : Z) :
  columns kw = Some col -> dropna col = map Num vs -> vs <> [] ->
  exact_in_double vs ->
  (2 * fold_right Z.add 0 vs = (2 * m + 1) * Z.of_nat (length vs))%Z ->
  trend_index (keyword_record (IotFrame columns) related max_verwandte kw)
  = Some (if Z.even m then m else (m + 1)%Z).
Proof.
  intros Hc Hd Hne _ Hs.
  rewrite (record_trend_index_numbers columns related max_verwandte kw col vs Hc Hd Hne).
  rewrite (round_half_even_tie _ m); [reflexivity | | exact Hs].
  destruct vs; [congruence | simpl length; lia].
Qed.

Lemma half_mean_goes_to_even_witness :
  trend_index
    (keyword_record (IotFrame (fun _ => Some [Num 50; Num 51])) sample_related 5 "seo")
  = Some (if Z.even 50 then 50 else (50 + 1))%Z.
Proof.
  apply (half_mean_goes_to_even (fun _ => Some [Num 50; Num 51])
           sample_related 5 "seo" [Num 50; Num 51] [50; 51]%Z 50).
  - reflexivity.
  - reflexivity.
  - discriminate.
  - unfold exact_in_double. simpl. lia.
  - reflexivity.
Defined.

(** ** [_clean_code] *)

Example clean_code_ex1 :
  Code._clean_code
    (Some ("```python" ++ Runner.newline ++ "x = 1" ++ Runner.newline ++ "```")%string)
  = "x = 1".
Proof. reflexivity. Qed.

Example clean_code_ex2 : Code._clean_code (Some " `````x```` ") = "``x`".
Proof. reflexivity. Qed.

Example replace_ex : Code.replace "ab" EmptyString "aabbab" = "ab".
Proof. reflexivity. Qed.

Lemma lstrip_strip (s : string) : Str.lstrip (Str.strip s) = Str.strip s.
Proof. unfold Str.strip. apply lstrip_lstrip. Qed.

Lemma strip_strip (s : string) : Str.strip (Str.strip s) = Str.strip s.
Proof.
  unfold Str.strip at 1. rewrite rstrip_strip. apply lstrip_strip.
Qed.

(** X19: what [_clean_code] returns has no whitespace at its start or its
    end: stripping it changes nothing. *)
Theorem clean_code_stripped (code_str : option string) :
  Str.strip (Code._clean_code code_str) = Code._clean_code code_str.
Proof.
  unfold Code._clean_code. destruct code_str as [s|]; [|reflexivity].
  cbv zeta. destruct (String.prefix Code.fence_python (Str.strip s));
    [apply strip_strip|].
  destruct (String.prefix Code.fence (Str.strip s)); apply strip_strip.
Qed.

Lemma prefix_cons (a : ascii) (p : string) (c : ascii) (x : string) :
  String.prefix (String a p) (String c x) = true <->
  a = c /\ String.prefix p x = true.
Proof.
  simpl. destruct (ascii_dec a c) as [E|E]; split.
  - intros H. split; assumption.
  - intros [_ H]. exact H.
  - discriminate.
  - intros [H _]. contradiction.
Qed.

Lemma prefix_nil_l (s : string) : String.prefix EmptyString s = true.
Proof. destruct s; reflexivity. Qed.

Lemma prefix_nil_r (a : ascii) (p : string) :
  String.prefix (String a p) EmptyString = false.
Proof. reflexivity. Qed.

Lemma prefix_fence_false (c : ascii) (x y : string) :
  String.prefix Code.fence (String c x) = false ->
  (String.prefix "``" x = false -> String.prefix "``" y = false) ->
  String.prefix Code.fence (String c y) = false.
Proof.
  intros H Hxy. unfold Code.fence in *.
  destruct (String.prefix "```" (String c y)) eqn:E; [|reflexivity].
  apply prefix_cons in E. destruct E as [Ec Ey].
  destruct (String.prefix "``" x) eqn:Ex.
  - assert (String.prefix "```" (String c x) = true)
      by (apply prefix_cons; split; assumption).
    congruence.
  - rewrite (Hxy eq_refl) in Ey. discriminate.
Qed.

(** Removing the fences leaves a lone backtick or none where there was one
    or none. *)
Lemma replace_fence_one (r : string) :
  String.prefix "`" r = false ->
  String.prefix "`" (Code.replace_go Code.fence EmptyString 0 r) = false.
Proof.
  destruct r as [|c r]; [reflexivity|].
  intros H. cbn [Code.replace_go].
  destruct (String.prefix Code.fence (String c r)) eqn:E.
  - unfold Code.fence in E. apply prefix_cons in E. destruct E as [<- _].
    assert (String.prefix "`" (String "`"%char r) = true)
      by (apply prefix_cons; split; [reflexivity | apply prefix_nil_l]).
    congruence.
  - destruct (String.prefix "`" (String c (Code.replace_go Code.fence EmptyString 0 r)))
      eqn:E'; [|reflexivity].
    apply prefix_cons in E'. destruct E' as [<- _].
    assert (String.prefix "`" (String "`"%char r) = true)
      by (apply prefix_cons; split; [reflexivity | apply prefix_nil_l]).
    congruence.
Qed.

Lemma replace_fence_two (r : string) :
  String.prefix "``" r = false ->
  String.prefix "``" (Code.replace_go Code.fence EmptyString 0 r) = false.
Proof.
  destruct r as [|c r]; [reflexivity|].
  intros H. cbn [Code.replace_go].
  destruct (String.prefix Code.fence (String c r)) eqn:E.
  - unfold Code.fence in E. apply prefix_cons in E. destruct E as [<- E].
    assert (String.prefix "``" (String "`"%char r) = true).
    { apply prefix_cons. split; [reflexivity|].
      destruct r as [|c' r']; [discriminate|].
      apply prefix_cons in E. destruct E as [<- _].
      apply prefix_cons. split; [reflexivity | apply prefix_nil_l]. }
    congruence.
  - destruct (String.prefix "``"
                (String c (Code.replace_go Code.fence EmptyString 0 r))) eqn:E';
      [|reflexivity].
    apply prefix_cons in E'. destruct E' as [<- E'].
    destruct (String.prefix "`" r) eqn:Er.
    + assert (String.prefix "``" (String "`"%char r) = true)
        by (apply prefix_cons; split; [reflexivity | exact Er]).
      congruence.
    + rewrite (replace_fence_one r Er) in E'. discriminate.
Qed.

(** After the fences are removed, none is left. *)
Lemma replace_fence_free (s : string) (k : nat) :
  Code.fence_free (Code.replace_go Code.fence EmptyString k s) = true.
Proof.
  revert k. induction s as [|c r IH]; intros k; [reflexivity|].
  cbn [Code.replace_go]. destruct k as [|k]; [|apply IH].
  destruct (String.prefix Code.fence (String c r)) eqn:E.
  - cbn [append]. apply IH.
  - cbn [Code.fence_free]. rewrite IH, andb_true_r.
    rewrite (prefix_fence_false c r _ E (replace_fence_two r)). reflexivity.
Qed.

Lemma fence_free_lstrip (s : string) :
  Code.fence_free s = true -> Code.fence_free (Str.lstrip s) = true.
Proof.
  induction s as [|c r IH]; [trivial|].
  intros H. cbn [Str.lstrip]. destruct (Char.isspace c); [|exact H].
  apply IH. cbn [Code.fence_free] in H.
  apply andb_true_iff in H. apply H.
Qed.

Lemma prefix_rstrip (p s : string) :
  String.prefix p (Str.rstrip s) = true -> String.prefix p s = true.
Proof.
  revert p. induction s as [|c r IH]; intros p; [trivial|].
  destruct p as [|a p]; [reflexivity|].
  cbn [Str.rstrip].
  destruct (Char.isspace c && Str.is_empty (Str.rstrip r)); [discriminate|].
  intros H. apply prefix_cons in H. destruct H as [<- H].
  apply prefix_cons. split; [reflexivity | apply IH, H].
Qed.

Lemma fence_free_rstrip (s : string) :
  Code.fence_free s = true -> Code.fence_free (Str.rstrip s) = true.
Proof.
  induction s as [|c r IH]; [trivial|].
  intros H. cbn [Code.fence_free] in H.
  apply andb_true_iff in H. destruct H as [Hp Hr].
  pose proof (prefix_rstrip Code.fence (String c r)) as Hpre.
  cbn [Str.rstrip] in *.
  destruct (Char.isspace c && Str.is_empty (Str.rstrip r)); [reflexivity|].
  cbn [Code.fence_free]. rewrite (IH Hr), andb_true_r.
  destruct (String.prefix Code.fence (String c (Str.rstrip r))) eqn:E;
    [|reflexivity].
  rewrite (Hpre eq_refl) in Hp. discriminate.
Qed.

Lemma fence_free_strip (s : string) :
  Code.fence_free s = true -> Code.fence_free (Str.strip s) = true.
Proof. intros H. apply fence_free_lstrip, fence_free_rstrip, H. Qed.

Lemma fence_free_prefix (s : string) :
  Code.fence_free s = true -> String.prefix Code.fence s = false.
Proof.
  destruct s as [|c r]; [reflexivity|].
  cbn [Code.fence_free]. intros H. apply andb_true_iff in H.
  destruct H as [H _]. apply negb_true_iff in H. exact H.
Qed.

Lemma fence_free_tail (c : ascii) (r : string) :
  Code.fence_free (String c r) = true -> Code.fence_free r = true.
Proof.
  cbn [Code.fence_free]. intros H. apply andb_true_iff in H. apply H.
Qed.

Lemma fence_free_no_fence (s : string) :
  Code.fence_free s = true -> ~ Code.has_fence s.
Proof.
  intros H [pre [post ->]]. induction pre as [|c pre IH].
  - change (Code.fence_free (Code.fence ++ post) = true) in H.
    apply fence_free_prefix in H.
    assert (E : String.prefix Code.fence (Code.fence ++ post) = true).
    { unfold Code.fence. cbn [append].
      repeat (apply prefix_cons; split; [reflexivity|]). apply prefix_nil_l. }
    congruence.
  - apply IH. apply (fence_free_tail c). exact H.
Qed.

(** X20: when the text starts with a code fence (after stripping), the
    result holds no code fence any more, wherever fences stood. *)
Theorem clean_code_removes_fences (s : string) :
  String.prefix Code.fence (Str.strip s) = true ->
  ~ Code.has_fence (Code._clean_code (Some s)).
Proof.
  intros H. apply fence_free_no_fence. unfold Code._clean_code. cbv zeta.
  rewrite H.
  destruct (String.prefix Code.fence_python (Str.strip s));
    apply fence_free_strip, replace_fence_free.
Qed.

Lemma clean_code_removes_fences_witness :
  ~ Code.has_fence (Code._clean_code (Some " `````x```` ")).
Proof.
  apply (clean_code_removes_fences " `````x```` ").
  reflexivity.
Defined.

(** ** The columns of the table *)

Example ordered_columns_ex :
  Code.ordered_columns ["quelle"; "trend_index"; "keyword"; "rang"]
  = ["keyword"; "trend_index"; "quelle"; "rang"].
Proof. reflexivity. Qed.

Lemma filter_split_perm {A} (p : A -> bool) (l : list A) :
  Permutation l (filter p l ++ filter (fun a => negb (p a)) l).
Proof.
  induction l as [|a l IH]; simpl; [constructor|].
  destruct (p a); simpl.
  - apply perm_skip, IH.
  - apply Permutation_cons_app, IH.
Qed.

Lemma preferred_NoDup : NoDup Code.preferred.
Proof.
  unfold Code.preferred. repeat constructor; simpl; intuition discriminate.
Qed.

(** X21: for a frame whose column labels differ from each other, the table
    has the columns of the frame, each once: the order changes, nothing is
    lost and nothing is doubled. *)
Theorem ordered_columns_permutation (columns : list string) :
  NoDup columns ->
  Permutation (Code.ordered_columns columns) columns
  /\ NoDup (Code.ordered_columns columns).
Proof.
  intros Hnd.
  assert (Hp : Permutation (Code.ordered_columns columns) columns).
  { unfold Code.ordered_columns.
    eapply Permutation_trans;
      [|symmetry;
        apply (filter_split_perm (fun c => Str.mem c Code.preferred) columns)].
    apply Permutation_app_tail. apply NoDup_Permutation.
    - apply NoDup_filter, preferred_NoDup.
    - apply NoDup_filter, Hnd.
    - intros x. rewrite !filter_In, !mem_true. tauto. }
  split; [exact Hp|].
  apply (Permutation_NoDup (l := columns)); [symmetry; exact Hp | exact Hnd].
Qed.

Lemma ordered_columns_permutation_witness :
  Permutation (Code.ordered_columns ["quelle"; "trend_index"; "keyword"])
    ["quelle"; "trend_index"; "keyword"]
  /\ NoDup (Code.ordered_columns ["quelle"; "trend_index"; "keyword"]).
Proof.
  apply (ordered_columns_permutation ["quelle"; "trend_index"; "keyword"]).
  repeat constructor; simpl; intuition discriminate.
Defined.

(** X22: the preferred columns come first and in their fixed order: the
    table is the preferred columns that the frame has, then the other
    columns of the frame in the order of the frame. *)
Theorem preferred_columns_first (columns : list string) (c : string) :
  In c columns ->
  In c Code.preferred ->
  exists before after,
    Code.ordered_columns columns = before ++ c :: after
    /\ Forall (fun b => In b Code.preferred) before.
Proof.
  intros Hc Hp. unfold Code.ordered_columns.
  assert (Hin : In c (filter (fun c => Str.mem c columns) Code.preferred)).
  { apply filter_In. split; [exact Hp | apply mem_true, Hc]. }
  apply in_split in Hin. destruct Hin as [before [after E]].
  exists before, (after ++ filter (fun c => negb (Str.mem c Code.preferred)) columns).
  split.
  - rewrite E, <- app_assoc. reflexivity.
  - apply Forall_forall. intros b Hb.
    assert (Hb' : In b (filter (fun c => Str.mem c columns) Code.preferred))
      by (rewrite E; apply in_or_app; left; exact Hb).
    apply filter_In in Hb'. apply Hb'.
Qed.

Lemma preferred_columns_first_witness :
  exists before after,
    Code.ordered_columns ["quelle"; "trend_index"; "keyword"]
    = before ++ "trend_index" :: after
    /\ Forall (fun b => In b Code.preferred) before.
Proof.
  apply (preferred_columns_first ["quelle"; "trend_index"; "keyword"] "trend_index").
  - simpl. auto.
  - simpl. auto.
Defined.

(** ** The state the agents leave behind *)

Section RunnerProperties.
Variable V : Type.

Lemma dict_get_set (d : Runner.dict V) (k k' : string) (v : V) :
  Runner.dict_get V (Runner.dict_set V d k v) k' =
  if String.eqb k k' then Some v else Runner.dict_get V d k'.
Proof.
  induction d as [|[k0 v0] d IH]; simpl.
  - destruct (String.eqb k k'); reflexivity.
  - destruct (String.eqb k0 k) eqn:E0; simpl.
    + apply String.eqb_eq in E0. subst k0.
      destruct (String.eqb k k'); reflexivity.
    + destruct (String.eqb k0 k') eqn:E1.
      * apply String.eqb_eq in E1. subst k'. rewrite String.eqb_sym, E0.
        reflexivity.
      * exact IH.
Qed.

Lemma dict_get_absent (d : Runner.dict V) (k : string) :
  ~ In k (map fst d) -> Runner.dict_get V d k = None.
Proof.
  induction d as [|[k0 v0] d IH]; simpl; [reflexivity|].
  intros H. destruct (String.eqb k0 k) eqn:E.
  - apply String.eqb_eq in E. tauto.
  - apply IH. tauto.
Qed.

Lemma dict_get_update (d other : Runner.dict V) (k : string) :
  NoDup (map fst other) ->
  Runner.dict_get V (Runner.dict_update V d other) k =
  match Runner.dict_get V other k with
  | Some v => Some v
  | None => Runner.dict_get V d k
  end.
Proof.
  unfold Runner.dict_update. revert d.
  induction other as [|[k1 v1] other IH]; intros d Hnd; simpl; [reflexivity|].
  inversion Hnd as [|? ? Hnotin Hnd']; subst.
  rewrite (IH _ Hnd'), dict_get_set.
  destruct (String.eqb k1 k) eqn:E; [|reflexivity].
  apply String.eqb_eq in E. subst k1.
  rewrite (dict_get_absent other k Hnotin). reflexivity.
Qed.

(** X23: the last write wins.  After one more event, a key has the value of
    that event's state delta when the delta holds the key, and otherwise the
    value it had before; events without actions or with an empty delta change
    nothing. *)
Theorem last_write_wins (events : list (Runner.Event V)) (event : Runner.Event V)
    (k : string) :
  (forall delta, Runner.delta_of V event = Some delta -> NoDup (map fst delta)) ->
  Runner.dict_get V (Runner.collect V (events ++ [event]) []) k =
  match Runner.delta_of V event with
  | Some delta =>
      match Runner.dict_get V delta k with
      | Some v => Some v
      | None => Runner.dict_get V (Runner.collect V events []) k
      end
  | None => Runner.dict_get V (Runner.collect V events []) k
  end.
Proof.
  intros Hnd. unfold Runner.collect. rewrite fold_left_app. simpl.
  destruct (Runner.delta_of V event) as [delta|]; [|reflexivity].
  apply dict_get_update, Hnd. reflexivity.
Qed.

End RunnerProperties.

Lemma last_write_wins_witness :
  Runner.dict_get nat
    (Runner.collect nat
       ([ {| Runner.actions := Some {| Runner.state_delta := Some [("trend_daten", 1)] |} |};
          {| Runner.actions := None |} ]
        ++ [ {| Runner.actions :=
                  Some {| Runner.state_delta :=
                            Some [("seo_ergebnis", 2); ("trend_daten", 3)] |} |} ])
       [])
    "trend_daten"
  = Some 3.
Proof.
  apply (last_write_wins nat
           [ {| Runner.actions := Some {| Runner.state_delta := Some [("trend_daten", 1)] |} |};
             {| Runner.actions := None |} ]
           {| Runner.actions :=
                Some {| Runner.state_delta :=
                          Some [("seo_ergebnis", 2); ("trend_daten", 3)] |} |}
           "trend_daten").
  intros delta [= <-]. repeat constructor; simpl; intuition discriminate.
Defined.

(** ** More on the request form *)

Section MoreRequestProperties.
Variables DataFrame Chart Results : Type.
Variable empty_frame : DataFrame.
Variable run_keyword_agent_async : string -> string -> Z -> Z -> outcome Results.
Variable present : Results -> outcome (App.outputs DataFrame Chart).

(** X24: a topic that is blank after stripping is rejected first, whatever
    the ages are, and the agent runner is not invoked. *)
Theorem blank_topic_rejected (thema : string) (artikeltext : option string)
    (alter_min alter_max : App.number) :
  Str.strip thema = EmptyString ->
  App.process_request_async empty_frame run_keyword_agent_async present
    thema artikeltext alter_min alter_max
  = (Ok (App._make_error_outputs empty_frame App.msg_thema), []).
Proof.
  intros H. unfold App.process_request_async. rewrite H. reflexivity.
Qed.

(** X25: with a topic that is not blank, an age that [int] does not accept
    is rejected with the message about whole numbers, and the agent runner
    is not invoked. *)
Theorem unconvertible_age_rejected (thema : string) (artikeltext : option string)
    (alter_min alter_max : App.number) (e : PyException) :
  Str.strip thema <> EmptyString ->
  App.py_int alter_min = Raised e \/ App.py_int alter_max = Raised e ->
  App.process_request_async empty_frame run_keyword_agent_async present
    thema artikeltext alter_min alter_max
  = (Ok (App._make_error_outputs empty_frame App.msg_ganze_zahlen), []).
Proof.
  intros Ht Hr. unfold App.process_request_async.
  destruct (Str.strip thema) as [|c t] eqn:Es; [congruence|].
  cbn [Str.truthy Str.is_empty negb].
  destruct Hr as [Hr | Hr].
  - rewrite Hr. reflexivity.
  - rewrite Hr. destruct (App.py_int alter_min); reflexivity.
Qed.

(** X26: the agent runner is invoked at most once, and only with the
    stripped topic, which is not empty, the article text or the empty string
    in its place, and the two ages as integers with
    [0 <= alter_min <= alter_max]. *)
Theorem runner_only_called_with_valid_input (thema : string)
    (artikeltext : option string) (alter_min alter_max : App.number)
    (t art : string) (a b : Z) :
  In (App.EvRunAgent t art a b)
    (Eff.trace (App.process_request_async empty_frame run_keyword_agent_async
                  present thema artikeltext alter_min alter_max)) ->
  t = Str.strip thema /\ t <> EmptyString
  /\ art = App.or_empty artikeltext
  /\ App.py_int alter_min = Ok a /\ App.py_int alter_max = Ok b
  /\ (0 <= a <= b)%Z
  /\ length (Eff.trace (App.process_request_async empty_frame
                          run_keyword_agent_async present thema artikeltext
                          alter_min alter_max)) = 1.
Proof.
  unfold App.process_request_async.
  destruct (Str.strip thema) as [|c s] eqn:Es; [intros []|].
  cbn [Str.truthy Str.is_empty negb].
  destruct (App.py_int alter_min) as [a'|e1]; cbn [obind]; [|intros []].
  destruct (App.py_int alter_max) as [b'|e2]; cbn [obind]; [|intros []].
  destruct ((a' <? 0)%Z || (b' <? 0)%Z || (b' <? a')%Z) eqn:Ec; [intros []|].
  apply orb_false_iff in Ec. destruct Ec as [Ec E3].
  apply orb_false_iff in Ec. destruct Ec as [E1 E2].
  apply Z.ltb_ge in E1, E2, E3.
  cbv zeta. rewrite trace_bind, trace_call, result_call.
  assert (Hnil : match run_keyword_agent_async (String c s)
                         (App.or_empty artikeltext) a' b' with
                 | Ok a0 => Eff.trace (present a0, @nil App.app_event)
                 | Raised _ => []
                 end = []).
  { destruct (run_keyword_agent_async _ _ _ _); reflexivity. }
  rewrite Hnil. simpl. intros [H | []]. injection H as <- <- <- <-.
  repeat split; try reflexivity; try lia. discriminate.
Qed.

(** X27: an exception of the agent runner is not caught: for valid input
    it reaches the caller, after the one call to the runner. *)
Theorem runner_exception_propagates (thema : string) (artikeltext : option string)
    (alter_min alter_max : App.number) (a b : Z) (e : PyException) :
  Str.strip thema <> EmptyString ->
  App.py_int alter_min = Ok a ->
  App.py_int alter_max = Ok b ->
  (0 <= a <= b)%Z ->
  run_keyword_agent_async (Str.strip thema) (App.or_empty artikeltext) a b
  = Raised e ->
  App.process_request_async empty_frame run_keyword_agent_async present
    thema artikeltext alter_min alter_max
  = (Raised e,
     [App.EvRunAgent (Str.strip thema) (App.or_empty artikeltext) a b]).
Proof.
  intros Ht Ha Hb Hr He. unfold App.process_request_async.
  destruct (Str.strip thema) as [|c s] eqn:Es; [congruence|].
  cbn [Str.truthy Str.is_empty negb]. rewrite Ha, Hb. cbn [obind].
  assert (E : ((a <? 0) || (b <? 0) || (b <? a))%Z = false).
  { apply orb_false_iff. split; [apply orb_false_iff; split|];
      apply Z.ltb_ge; lia. }
  rewrite E. cbv zeta. unfold Eff.bind, Eff.call. rewrite He. reflexivity.
Qed.

End MoreRequestProperties.

Lemma blank_topic_rejected_witness :
  App.process_request_async (Chart := unit) (Results := unit) tt
    (fun _ _ _ _ => Ok tt) (fun _ => Raised TypeError)
    "   " None App.NNone (App.NInt (-3))
  = (Ok (App._make_error_outputs tt App.msg_thema), []).
Proof.
  apply (blank_topic_rejected unit unit unit tt
           (fun _ _ _ _ => Ok tt) (fun _ => Raised TypeError)
           "   " None App.NNone (App.NInt (-3))).
  reflexivity.
Defined.

Lemma unconvertible_age_rejected_witness :
  App.process_request_async (Chart := unit) (Results := unit) tt
    (fun _ _ _ _ => Ok tt) (fun _ => Raised TypeError)
    "Kekse" None (App.NInt 18) App.NNone
  = (Ok (App._make_error_outputs tt App.msg_ganze_zahlen), []).
Proof.
  apply (unconvertible_age_rejected unit unit unit tt
           (fun _ _ _ _ => Ok tt) (fun _ => Raised TypeError)
           "Kekse" None (App.NInt 18) App.NNone TypeError).
  - vm_compute. discriminate.
  - right. reflexivity.
Defined.

Lemma runner_only_called_with_valid_input_witness :
  "Kekse" = Str.strip " Kekse " /\ "Kekse" <> EmptyString
  /\ EmptyString = App.or_empty None
  /\ App.py_int (App.NInt 18) = Ok 18%Z /\ App.py_int (App.NFloat 49 (-1)) = Ok 24%Z
  /\ (0 <= 18 <= 24)%Z
  /\ length (Eff.trace (App.process_request_async (Chart := unit) (Results := unit)
                          tt (fun _ _ _ _ => Ok tt) (fun _ => Raised TypeError)
                          " Kekse " None (App.NInt 18) (App.NFloat 49 (-1)))) = 1.
Proof.
  apply (runner_only_called_with_valid_input unit unit unit tt
           (fun _ _ _ _ => Ok tt) (fun _ => Raised TypeError)
           " Kekse " None (App.NInt 18) (App.NFloat 49 (-1)) "Kekse" EmptyString 18 24).
  left. reflexivity.
Defined.

Lemma runner_exception_propagates_witness :
  App.process_request_async (Chart := unit) (Results := unit) tt
    (fun _ _ _ _ => Raised ResponseError) (fun _ => Raised TypeError)
    " Kekse " None (App.NInt 18) (App.NInt 24)
  = (Raised ResponseError,
     [App.EvRunAgent (Str.strip " Kekse ") (App.or_empty None) 18 24]).
Proof.
  apply (runner_exception_propagates unit unit unit tt
           (fun _ _ _ _ => Raised ResponseError) (fun _ => Raised TypeError)
           " Kekse " None (App.NInt 18) (App.NInt 24) 18 24 ResponseError).
  - vm_compute. discriminate.
  - reflexivity.
  - reflexivity.
  - lia.
  - reflexivity.
Defined.

(** ** A run of the agents *)

(** A runner whose stream yields two state deltas. *)
Example run_keyword_agent_async_ex :
  Runner.run_keyword_agent_async nat
    {| Runner.create_session := fun _ _ => Ok {| Runner.id := "s1" |};
       Runner.run_async := fun _ _ _ =>
         ([ {| Runner.actions :=
                 Some {| Runner.state_delta := Some [("trend_daten", 1)] |} |};
            {| Runner.actions := Some {| Runner.state_delta := Some [] |} |};
            {| Runner.actions :=
                 Some {| Runner.state_delta :=
                           Some [("seo_ergebnis", 2); ("trend_daten", 3)] |} |} ],
          None) |}
    "Kekse" EmptyString 18 24
  = (Ok [("trend_daten", 3); ("seo_ergebnis", 2)],
     [ Runner.EvCreateSession "user" "keyword_agent";
       Runner.EvRunAsync "user" "s1"
         {| Runner.role := "user";
            Runner.parts :=
              [("thema: Kekse" ++ Runner.newline ++ "artikeltext: " ++ Runner.newline
                ++ "alter_min: 18" ++ Runner.newline ++ "alter_max: 24")%string] |} ]).
Proof. reflexivity. Qed.

(** ** Exceptions outside [Exception] *)


Lemma base_bind_ext {A B} (m : Base.M A) (k k' : A -> Base.M B) :
  (forall a, k a = k' a) -> Base.bind m k = Base.bind m k'.
Proof.
  intros H. destruct m as [[a|t] tr]; simpl; [|reflexivity].
  rewrite H. reflexivity.
Qed.

Lemma of_run_bind {A B} (m : Eff.M A) (k : A -> Eff.M B) :
  of_run (Eff.bind m k) = Base.bind (of_run m) (fun a => of_run (k a)).
Proof.
  destruct m as [[a|e] t]; simpl; [|reflexivity].
  unfold of_run. simpl. destruct (k a); reflexivity.
Qed.

Section BaseLoop.
Variable P : Base.Pytrends.
Variables (cleaned : list string) (land zeitraum : string) (max_verwandte : Z).



End BaseLoop.







(** For a service that raises nothing but instances of [Exception], the tool
    with and without the other exceptions in view is the same. *)
Lemma of_run_batch_step (P : Pytrends) (cleaned : list string)
    (land zeitraum : string) (max_verwandte : Z) (i : nat) (erg : list Ergebnis) :
  Base.batch_step (of_pytrends P) cleaned land zeitraum max_verwandte i erg
  = of_run (batch_step P cleaned land zeitraum max_verwandte i erg).
Proof.
  unfold Base.batch_step, batch_step, of_run, of_pytrends. cbv zeta.
  unfold Base.bind, Base.call, Base.ret, Eff.bind, Eff.call, Eff.ret.
  cbn [Base.build_payload Base.interest_over_time Base.related_queries].
  destruct (build_payload P _) as [[]|e1]; cbn [of_outcome fst snd];
    [|reflexivity].
  destruct (interest_over_time P _) as [iot|e2]; cbn [of_outcome fst snd];
    [|reflexivity].
  destruct (related_queries P _) as [related|e3]; reflexivity.
Qed.

Lemma of_run_for_each (P : Pytrends) (cleaned : list string)
    (land zeitraum : string) (max_verwandte : Z) (idxs : list nat)
    (erg : list Ergebnis) :
  Base.for_each idxs
    (Base.batch_step (of_pytrends P) cleaned land zeitraum max_verwandte) erg
  = of_run (Eff.for_each idxs
              (batch_step P cleaned land zeitraum max_verwandte) erg).
Proof.
  revert erg. induction idxs as [|i rest IH]; intros erg; [reflexivity|].
  cbn [Base.for_each Eff.for_each].
  rewrite of_run_bind, of_run_batch_step.
  apply base_bind_ext. exact IH.
Qed.

Lemma of_run_tool (P : Pytrends) (keywords : list string)
    (land zeitraum sprache : string) (max_verwandte : Z) :
  Base.get_trend_daten_fuer_keywords (of_pytrends P) keywords land zeitraum
    sprache max_verwandte
  = of_run (get_trend_daten_fuer_keywords P keywords land zeitraum sprache
              max_verwandte).
Proof.
  unfold Base.get_trend_daten_fuer_keywords, get_trend_daten_fuer_keywords.
  cbv zeta. destruct (clean_keywords keywords) as [|k more]; [reflexivity|].
  assert (Hb : Base.trends_body (of_pytrends P) (k :: more) land zeitraum
                 sprache max_verwandte
               = of_run (trends_body P (k :: more) land zeitraum sprache
                           max_verwandte)).
  { unfold Base.trends_body, trends_body.
    rewrite of_run_bind. apply base_bind_ext. intros _.
    rewrite of_run_bind. apply base_bind_ext. intros _.
    rewrite of_run_bind, of_run_for_each. apply base_bind_ext. reflexivity. }
  rewrite Hb.
  destruct (trends_body P (k :: more) land zeitraum sprache max_verwandte)
    as [[d|e] tr]; reflexivity.
Qed.
